(** * Flight logger: the interval-consistent append-only ledger

    A shallow embedding of the core of [flight_logger.py]
    ([read_flights_df], [write_flights_df], [parse_datetime],
    [calc_duration_hours], [detect_overlap], [add_flight_record]) and of
    the handlers of its form, with the properties of its specification.

    Modelling conventions.
    - A Python [str] is a [string]; the model covers ASCII text
      ([str.strip], [str.upper], the regular-expression classes [\d] and
      [\s] are given on code points below 128).
    - A naive [datetime] with zero seconds is the number of minutes since
      0001-01-01 00:00, that is [1440 * (toordinal() - 1) + 60 * hour +
      minute]; comparison of datetimes is comparison of these numbers and
      [timedelta(days=1)] is 1440 minutes.
    - A Python [float] is an exact rational ([Q]); [round(x, 2)] rounds
      the exact value half-to-even.  For the hours of a ledger (sums of
      durations, all whole numbers of hundredths, up to a million) the
      nearest [float] of the exact result is what Python computes.
    - The storage root is a finite map from the folder name of an
      aircraft to the state of its [flights.csv]: no file, a file that
      [pd.read_csv] cannot read, or a readable file.  A readable file is
      the list of its rows, in file order, with the eight columns of the
      header and values of the type of their column, as [pd.read_csv]
      returns them.  A tail number names one folder when it is a single
      path component ([plain_name]); the file system is a POSIX one and
      its failures on writing are not modelled.
    - The CSV text is not modelled.  [add_flight_record] keeps the frame
      it wrote; what the next [pd.read_csv] returns for it is given
      separately ([to_csv_read_csv], [add_flight_record_stored],
      [run_stored]): the same frame when its values are plain
      ([plain_ledger]: text that is no number, no missing value and needs
      no quoting, hours as above, integers of the [int64] range), a
      frame with a column of floats when a cumulative count leaves the
      [int64] range.  Properties that depend on what is read back are
      stated for plain ledgers.
    - Files that are not ledgers (other columns, other values) are
      covered by a second store, of frames of any content
      ([read_flights_frame]), of which the store of ledgers is a part
      ([disk_of]). *)

From Stdlib Require Import Ascii String ZArith QArith Qround Qabs Lia.
From stdpp Require Import gmap strings list fin_maps.

Local Open Scope string_scope.
Local Open Scope list_scope.
Local Open Scope Z_scope.

(** ** Exceptions and results *)

Inductive exn : Type :=
| ValueError_no_match (data : string)     (* time data ... does not match format *)
| ValueError_unconverted (rest : string)  (* unconverted data remains *)
| ValueError_out_of_range                 (* year 0, or day is out of range for month *)
| OverflowError.                          (* date value out of range *)

Inductive result (A : Type) : Type :=
| Ok (a : A)
| Raise (e : exn).
Arguments Ok {A} a.
Arguments Raise {A} e.

Definition is_ok {A} (r : result A) : bool :=
  match r with Ok _ => true | Raise _ => false end.

(** ** Strings: [str.strip] and [str.upper] *)

Module Str.

Definition code (c : ascii) : Z := Z.of_N (N_of_ascii c).

(** [str.isspace] on ASCII: TAB..CR, FS..US and the blank. *)
Definition isspace (c : ascii) : bool :=
  let n := code c in
  ((9 <=? n) && (n <=? 13)) || ((28 <=? n) && (n <=? 32)).

Fixpoint lstrip (s : string) : string :=
  match s with
  | String c r => if isspace c then lstrip r else s
  | EmptyString => EmptyString
  end.

Fixpoint rstrip (s : string) : string :=
  match s with
  | String c r =>
      match rstrip r with
      | EmptyString => if isspace c then EmptyString else String c EmptyString
      | r' => String c r'
      end
  | EmptyString => EmptyString
  end.

Definition strip (s : string) : string := rstrip (lstrip s).

Definition upper_char (c : ascii) : ascii :=
  let n := code c in
  if (97 <=? n) && (n <=? 122) then ascii_of_N (Z.to_N (n - 32)) else c.

Fixpoint upper (s : string) : string :=
  match s with
  | String c r => String (upper_char c) (upper r)
  | EmptyString => EmptyString
  end.

End Str.

(** ** The calendar of [datetime] *)

Module Cal.

Definition is_leap (year : Z) : bool :=
  (year mod 4 =? 0) && (negb (year mod 100 =? 0) || (year mod 400 =? 0)).

Definition DAYS_IN_MONTH (month : Z) : Z :=
  match month with
  | 1 => 31 | 2 => 28 | 3 => 31 | 4 => 30 | 5 => 31 | 6 => 30
  | 7 => 31 | 8 => 31 | 9 => 30 | 10 => 31 | 11 => 30 | 12 => 31
  | _ => 0
  end.

Definition DAYS_BEFORE_MONTH (month : Z) : Z :=
  match month with
  | 1 => 0 | 2 => 31 | 3 => 59 | 4 => 90 | 5 => 120 | 6 => 151
  | 7 => 181 | 8 => 212 | 9 => 243 | 10 => 273 | 11 => 304 | 12 => 334
  | _ => 0
  end.

Definition days_before_year (year : Z) : Z :=
  let y := year - 1 in
  y * 365 + y / 4 - y / 100 + y / 400.

Definition days_in_month (year month : Z) : Z :=
  if (month =? 2) && is_leap year then 29 else DAYS_IN_MONTH month.

Definition days_before_month (year month : Z) : Z :=
  DAYS_BEFORE_MONTH month + (if (2 <? month) && is_leap year then 1 else 0).

Definition ymd2ord (year month day : Z) : Z :=
  days_before_year year + days_before_month year month + day.

Definition MINYEAR : Z := 1.
Definition MAXYEAR : Z := 9999.
(** [date.max.toordinal()], the ordinal of 9999-12-31. *)
Definition MAXORDINAL : Z := 3652059.

(** Minutes since 0001-01-01 00:00 of a datetime with these fields. *)
Definition minutes (year month day hour minute : Z) : Z :=
  1440 * (ymd2ord year month day - 1) + 60 * hour + minute.

(** The proleptic Gregorian ordinal of the date of an instant. *)
Definition toordinal (t : Z) : Z := t / 1440 + 1.

(** [t + timedelta(days=n)]; the result must be a date up to 9999-12-31. *)
Definition add_days (t : Z) (n : Z) : result Z :=
  let t' := t + 1440 * n in
  if (1 <=? toordinal t') && (toordinal t' <=? MAXORDINAL) then Ok t'
  else Raise OverflowError.

End Cal.

(** ** [datetime.strptime(data, "%Y-%m-%d %H:%M")]

    The format is compiled to the regular expression
    [(\d\d\d\d)-(1[0-2]|0[1-9]|[1-9])-(3[01]|[12]\d|0[1-9]|[1-9]| [1-9])\s+(2[0-3]|[0-1]\d|\d):([0-5]\d|\d)]
    and matched at the start of the data by a backtracking matcher.  Each
    piece below returns the ways it can match a prefix, in the order the
    matcher tries them, with the text left over. *)

Module Strptime.

Definition re_digit (lo hi : Z) (s : string) : list (Z * string) :=
  match s with
  | String c r =>
      let v := Str.code c - 48 in
      if (0 <=? v) && (v <=? 9) && (lo <=? v) && (v <=? hi) then [(v, r)] else []
  | EmptyString => []
  end.

Definition re_digit2 (lo1 hi1 lo2 hi2 : Z) (s : string) : list (Z * string) :=
  '(a, r1) ← re_digit lo1 hi1 s;
  '(b, r2) ← re_digit lo2 hi2 r1;
  [(10 * a + b, r2)].

Definition re_char (c : ascii) (s : string) : list string :=
  match s with
  | String c' r => if Ascii.eqb c c' then [r] else []
  | EmptyString => []
  end.

(** [\s+], greedy: the longest run of white space first. *)
Fixpoint re_spaces (s : string) : list string :=
  match s with
  | String c r => if Str.isspace c then re_spaces r ++ [r] else []
  | EmptyString => []
  end.

Definition re_Y (s : string) : list (Z * string) :=
  '(a, r1) ← re_digit 0 9 s;
  '(b, r2) ← re_digit 0 9 r1;
  '(c, r3) ← re_digit 0 9 r2;
  '(d, r4) ← re_digit 0 9 r3;
  [(1000 * a + 100 * b + 10 * c + d, r4)].

Definition re_m (s : string) : list (Z * string) :=
  re_digit2 1 1 0 2 s ++ re_digit2 0 0 1 9 s ++ re_digit 1 9 s.

Definition re_d (s : string) : list (Z * string) :=
  re_digit2 3 3 0 1 s ++ re_digit2 1 2 0 9 s ++ re_digit2 0 0 1 9 s
    ++ re_digit 1 9 s ++ (r ← re_char " " s; re_digit 1 9 r).

Definition re_H (s : string) : list (Z * string) :=
  re_digit2 2 2 0 3 s ++ re_digit2 0 1 0 9 s ++ re_digit 0 9 s.

Definition re_M (s : string) : list (Z * string) :=
  re_digit2 0 5 0 9 s ++ re_digit 0 9 s.

Record fields : Type := Fields {
  f_year : Z; f_month : Z; f_day : Z; f_hour : Z; f_minute : Z
}.

Definition format_regex (s : string) : list (fields * string) :=
  '(Y, s1) ← re_Y s;
  s2 ← re_char "-" s1;
  '(m, s3) ← re_m s2;
  s4 ← re_char "-" s3;
  '(d, s5) ← re_d s4;
  s6 ← re_spaces s5;
  '(H, s7) ← re_H s6;
  s8 ← re_char ":" s7;
  '(M, s9) ← re_M s8;
  [(Fields Y m d H M, s9)].

(** The first match counts; text left after it is an error; the date
    fields then go through [date(year, month, day)]. *)
Definition strptime (data : string) : result Z :=
  match format_regex data with
  | [] => Raise (ValueError_no_match data)
  | (f, rest) :: _ =>
      match rest with
      | String _ _ => Raise (ValueError_unconverted rest)
      | EmptyString =>
          if (Cal.MINYEAR <=? f_year f) && (f_year f <=? Cal.MAXYEAR)
             && (1 <=? f_day f) && (f_day f <=? Cal.days_in_month (f_year f) (f_month f))
          then Ok (Cal.minutes (f_year f) (f_month f) (f_day f) (f_hour f) (f_minute f))
          else Raise ValueError_out_of_range
      end
  end.

End Strptime.

(** ** [parse_datetime] and [calc_duration_hours] *)

(** [datetime.strptime(f"{date_str.strip()} {time_str.strip()}", "%Y-%m-%d %H:%M")] *)
Definition parse_datetime (date_str time_str : string) : result Z :=
  Strptime.strptime (Str.strip date_str +:+ " " +:+ Str.strip time_str).

(** [round(x)] to an integer, half to even. *)
Definition round_half_even (x : Q) : Z :=
  let f := Qfloor x in
  match (x - inject_Z f ?= 1 # 2)%Q with
  | Lt => f
  | Gt => f + 1
  | Eq => if Z.even f then f else f + 1
  end.

(** [round(x, 2)] *)
Definition round2 (x : Q) : Q := Qred (round_half_even (x * 100) # 100).

Definition calc_duration_hours (date_str takeoff landing : string) : result Q :=
  match parse_datetime date_str takeoff with
  | Raise e => Raise e
  | Ok t1 =>
      match parse_datetime date_str landing with
      | Raise e => Raise e
      | Ok t2 =>
          match (if t2 <? t1 then Cal.add_days t2 1 else Ok t2) with
          | Raise e => Raise e
          | Ok t2 =>
              let seconds := 60 * (t2 - t1) in
              let hours := (inject_Z seconds / 3600)%Q in
              Ok (round2 hours)
          end
      end
  end.

(** ** The ledger files *)

(** One row of [flights.csv], with the columns of the file. *)
Record row : Type := Row {
  Date : string;
  Tail_Number : string;
  Takeoff_Time : string;
  Landing_Time : string;
  Flight_Duration : Q;
  Landings_This_Flight : Z;
  Total_Hours_After_Flight : Q;
  Total_Landings_After_Flight : Z
}.

Inductive file : Type :=
| Unreadable                (* [pd.read_csv] raises on it *)
| Csv (rows : list row).    (* the rows under the header, in file order *)

(** The folders under [BASE_DIR], each with its [flights.csv] if there is
    one.  A folder is identified by its name. *)
Abbreviation filesystem := (gmap string (option file)).

(** [os.makedirs(path, exist_ok=True)] *)
Definition makedirs (path : string) (fs : filesystem) : filesystem :=
  match fs !! path with
  | Some _ => fs
  | None => <[path := None]> fs
  end.

Definition aircraft_folder (tail_number : string) (fs : filesystem)
  : string * filesystem :=
  let tn := Str.upper (Str.strip tail_number) in
  let path := tn in
  (path, makedirs path fs).

Definition flights_csv_path (tail_number : string) (fs : filesystem)
  : string * filesystem :=
  aircraft_folder tail_number fs.

Definition read_flights_df (tail_number : string) (fs : filesystem)
  : list row * filesystem :=
  let '(path, fs) := flights_csv_path tail_number fs in
  match fs !! path with
  | Some (Some (Csv df)) => (df, fs)
  | Some (Some Unreadable) => ([], fs)    (* except Exception: pass *)
  | _ => ([], fs)                          (* not os.path.exists(path) *)
  end.

Definition write_flights_df (tail_number : string) (df : list row)
    (fs : filesystem) : filesystem :=
  let '(path, fs) := flights_csv_path tail_number fs in
  <[path := Some (Csv df)]> fs.

(** ** [detect_overlap] *)

(** The body of the [for _, row in df.iterrows()] loop and the loop. *)
Definition existing_interval (r : row) : result (Z * Z) :=
  match parse_datetime (Date r) (Takeoff_Time r) with
  | Raise e => Raise e
  | Ok existing_start =>
      match parse_datetime (Date r) (Landing_Time r) with
      | Raise e => Raise e
      | Ok existing_end =>
          match (if existing_end <? existing_start
                 then Cal.add_days existing_end 1 else Ok existing_end) with
          | Raise e => Raise e
          | Ok existing_end => Ok (existing_start, existing_end)
          end
      end
  end.

Fixpoint overlap_loop (new_start new_end : Z) (df : list row) : bool :=
  match df with
  | [] => false
  | r :: rest =>
      match existing_interval r with
      | Raise _ => overlap_loop new_start new_end rest   (* except Exception: continue *)
      | Ok (existing_start, existing_end) =>
          if (new_start <? existing_end) && (new_end >? existing_start)
          then true
          else overlap_loop new_start new_end rest
      end
  end.

Definition detect_overlap (tail_number date_str takeoff landing : string)
    (fs : filesystem) : result bool * filesystem :=
  let '(df, fs) := read_flights_df tail_number fs in
  match df with
  | [] => (Ok false, fs)
  | _ :: _ =>
      match parse_datetime date_str takeoff with
      | Raise e => (Raise e, fs)
      | Ok new_start =>
          match parse_datetime date_str landing with
          | Raise e => (Raise e, fs)
          | Ok new_end =>
              match (if new_end <? new_start
                     then Cal.add_days new_end 1 else Ok new_end) with
              | Raise e => (Raise e, fs)
              | Ok new_end => (Ok (overlap_loop new_start new_end df), fs)
              end
          end
      end
  end.

(** ** [add_flight_record] *)

Inductive message : Type :=
| Tail_number_required
| Date_time_parse_error (e : exn)
| Overlap_detected
| Flight_added.

(** The literal text of each message; the parse error is followed by the
    text of the exception. *)
Definition message_text (m : message) : string :=
  match m with
  | Tail_number_required => "Tail number required."
  | Date_time_parse_error _ => "Date/time parse error: "
  | Overlap_detected => "Overlap detected with existing flight."
  | Flight_added => "Flight added successfully."
  end.

Definition add_flight_record (date_str tail takeoff landing : string)
    (landings_this : Z) (fs : filesystem)
  : result (bool * message) * filesystem :=
  let tail := Str.upper (Str.strip tail) in
  match tail with
  | EmptyString => (Ok (false, Tail_number_required), fs)
  | String _ _ =>
      match calc_duration_hours date_str takeoff landing with
      | Raise e => (Ok (false, Date_time_parse_error e), fs)
      | Ok duration =>
          let '(overlap, fs) := detect_overlap tail date_str takeoff landing fs in
          match overlap with
          | Raise e => (Raise e, fs)
          | Ok true => (Ok (false, Overlap_detected), fs)
          | Ok false =>
              let '(df, fs) := read_flights_df tail fs in
              let '(prev_hours, prev_landings) :=
                match last df with
                | None => (0%Q, 0)
                | Some r => (Total_Hours_After_Flight r, Total_Landings_After_Flight r)
                end in
              let new_total_hours := round2 (prev_hours + duration) in
              let new_total_landings := prev_landings + landings_this in
              let new_row := {|
                Date := date_str;
                Tail_Number := tail;
                Takeoff_Time := takeoff;
                Landing_Time := landing;
                Flight_Duration := duration;
                Landings_This_Flight := landings_this;
                Total_Hours_After_Flight := new_total_hours;
                Total_Landings_After_Flight := new_total_landings
              |} in
              let df := df ++ [new_row] in
              let fs := write_flights_df tail df fs in
              (Ok (true, Flight_added), fs)
          end
      end
  end.

(** The operations of the specification. *)
Definition load (entity_id : string) (fs : filesystem) : list row :=
  fst (read_flights_df entity_id fs).

Definition record (date entity_id takeoff landing : string) (event_count : Z)
    (fs : filesystem) : result (bool * message) * filesystem :=
  add_flight_record date entity_id takeoff landing event_count fs.

(** The normalized interval of a date and two clock times, as it is
    computed in [calc_duration_hours] and twice in [detect_overlap]. *)
Definition interval (date_str takeoff landing : string) : result (Z * Z) :=
  match parse_datetime date_str takeoff with
  | Raise e => Raise e
  | Ok t1 =>
      match parse_datetime date_str landing with
      | Raise e => Raise e
      | Ok t2 =>
          match (if t2 <? t1 then Cal.add_days t2 1 else Ok t2) with
          | Raise e => Raise e
          | Ok t2 => Ok (t1, t2)
          end
      end
  end.

(** A store with one flight of N123AB, 2024-01-01 10:00 to 12:00. *)
Definition fs_one : filesystem :=
  snd (record "2024-01-01" "n123ab" "10:00" "12:00" 1 ∅).

(** A store where N77 flew overnight, 2024-01-01 23:00 to 01:00. *)
Definition fs_night : filesystem :=
  snd (record "2024-01-01" "N77" "23:00" "01:00" 2 ∅).

(** A store where N77 has a flight on 2024-01-02, 00:30 to 02:00. *)
Definition fs_morning : filesystem :=
  snd (record "2024-01-02" "N77" "00:30" "02:00" 1 ∅).

(** The row that [add_flight_record] appends to the ledger [df] for an
    accepted flight whose normalised interval is [(t1, t2)]. *)
Definition new_row (df : list row) (date_str tail takeoff landing : string)
    (landings_this : Z) (t1 t2 : Z) : row :=
  let duration := round2 (inject_Z (60 * (t2 - t1)) / 3600) in
  let prev_hours :=
    match last df with None => 0%Q | Some r => Total_Hours_After_Flight r end in
  let prev_landings :=
    match last df with None => 0 | Some r => Total_Landings_After_Flight r end in
  {| Date := date_str;
     Tail_Number := tail;
     Takeoff_Time := takeoff;
     Landing_Time := landing;
     Flight_Duration := duration;
     Landings_This_Flight := landings_this;
     Total_Hours_After_Flight := round2 (prev_hours + duration);
     Total_Landings_After_Flight := prev_landings + landings_this |}.

(** ** Sequences of calls *)

(** The arguments of one call of [record]. *)
Record call : Type := Call {
  c_date : string;
  c_entity : string;
  c_takeoff : string;
  c_landing : string;
  c_count : Z
}.

Definition record_call (c : call) (fs : filesystem)
  : result (bool * message) * filesystem :=
  record (c_date c) (c_entity c) (c_takeoff c) (c_landing c) (c_count c) fs.

Definition succeeded (out : result (bool * message)) : bool :=
  match out with
  | Ok (true, _) => true
  | _ => false
  end.

(** The store after a sequence of calls, whatever their outcomes. *)
Fixpoint run (calls : list call) (fs : filesystem) : filesystem :=
  match calls with
  | [] => fs
  | c :: rest => run rest (snd (record_call c fs))
  end.

(** The calls of the sequence that succeeded on the entity [entity_id]. *)
Fixpoint accepted (entity_id : string) (calls : list call) (fs : filesystem)
  : list call :=
  match calls with
  | [] => []
  | c :: rest =>
      let out := record_call c fs in
      (if succeeded (fst out)
          && bool_decide (Str.upper (Str.strip (c_entity c))
                          = Str.upper (Str.strip entity_id))
       then [c] else [])
      ++ accepted entity_id rest (snd out)
  end.

(** The running totals of a ledger follow from the totals before it. *)
Fixpoint totals_chain (prev_hours : Q) (prev_landings : Z) (df : list row) : Prop :=
  match df with
  | [] => True
  | r :: rest =>
      Total_Hours_After_Flight r = round2 (prev_hours + Flight_Duration r)
      ∧ Total_Landings_After_Flight r = prev_landings + Landings_This_Flight r
      ∧ totals_chain (Total_Hours_After_Flight r) (Total_Landings_After_Flight r) rest
  end.

(** A number of hundredths. *)
Definition centi (x : Q) : Prop := ∃ k : Z, (x == k # 100)%Q.

(** The totals carried by the last row of a ledger, or the given ones. *)
Definition final_hours (prev_hours : Q) (df : list row) : Q :=
  match last df with None => prev_hours | Some r => Total_Hours_After_Flight r end.

Definition final_landings (prev_landings : Z) (df : list row) : Z :=
  match last df with None => prev_landings | Some r => Total_Landings_After_Flight r end.

Definition sum_Z (l : list Z) : Z := foldr Z.add 0 l.
Definition sum_Q (l : list Q) : Q := foldr Qplus 0%Q l.

(** The row of a ledger and the call that produced it. *)
Definition row_of_call (r : row) (c : call) : Prop :=
  Landings_This_Flight r = c_count c
  ∧ calc_duration_hours (c_date c) (c_takeoff c) (c_landing c) = Ok (Flight_Duration r).

(** A store with three flights of N9 and one rejected call in between. *)
Definition calls_n9 : list call :=
  [ Call "2024-05-01" "n9" "08:00" "08:20" 2;
    Call "2024-05-01" "N9" "08:10" "09:00" 5;
    Call "2024-05-01" " N9 " "09:00" "09:20" 1;
    Call "2024-05-02" "N9" "23:50" "00:10" 3 ].

(** ** Reading the regular expression *)

(** [r] is what is left of [s] after a prefix. *)
Definition suffix_of (r s : string) : Prop := ∃ pre, s = pre +:+ r.

(** Every match of the piece [p] has its value between [lo] and [hi] and
    ends on a character that is not white space. *)
Definition consumes (p : string → list (Z * string)) (lo hi : Z) : Prop :=
  ∀ s v r, (v, r) ∈ p s →
    lo ≤ v ≤ hi ∧ ∃ c, Str.isspace c = false ∧ suffix_of (String c r) s.

(** The fields of a datetime that [date(year, month, day)] and
    [time(hour, minute)] accept. *)
Definition valid_fields (Y m d H M : Z) : Prop :=
  1 ≤ Y ≤ 9999 ∧ 1 ≤ m ≤ 12 ∧ 1 ≤ d ≤ Cal.days_in_month Y m
  ∧ 0 ≤ H ≤ 23 ∧ 0 ≤ M ≤ 59.

(** The text ends with white space, or is empty. *)
Fixpoint ends_blank (s : string) : Prop :=
  match s with
  | EmptyString => True
  | String c r =>
      match r with
      | EmptyString => Str.isspace c = true
      | String _ _ => ends_blank r
      end
  end.

(** ** The fixed format of the specification *)

(** The character of a decimal digit. *)
Definition digit_char (v : Z) : ascii := ascii_of_N (Z.to_N (48 + v)).

Definition two_digits (n : Z) : string :=
  String (digit_char (n / 10)) (String (digit_char (n mod 10)) EmptyString).

Definition four_digits (n : Z) : string :=
  String (digit_char (n / 1000))
    (String (digit_char (n / 100 mod 10)) (two_digits (n mod 100))).

(** A date written with a 4-digit year and 2-digit month and day, and a
    24-hour time written HH:MM. *)
Definition iso_date (Y m d : Z) : string :=
  four_digits Y +:+ "-" +:+ two_digits m +:+ "-" +:+ two_digits d.

Definition hhmm (H M : Z) : string :=
  two_digits H +:+ ":" +:+ two_digits M.

(** No character of the text is white space. *)
Fixpoint no_space (s : string) : Prop :=
  match s with
  | EmptyString => True
  | String c r => Str.isspace c = false ∧ no_space r
  end.

(** The rejection that comes from the validation of the arguments, before
    anything is parsed. *)
Definition is_validation_error (m : message) : bool :=
  match m with
  | Tail_number_required => true
  | _ => false
  end.

(** ** Ledgers whose flights lie apart *)

(** Both rows have an interval, and the two intervals do not intersect
    (they may touch). *)
Definition rows_apart (r1 r2 : row) : Prop :=
  ∃ s1 e1 s2 e2,
    existing_interval r1 = Ok (s1, e1) ∧ existing_interval r2 = Ok (s2, e2)
    ∧ (e1 ≤ s2 ∨ e2 ≤ s1).

(** Every row has an interval, and rows at two positions lie apart. *)
Definition ledger_apart (df : list row) : Prop :=
  Forall (λ r, is_ok (existing_interval r) = true) df
  ∧ ∀ i j r1 r2, (i < j)%nat → df !! i = Some r1 → df !! j = Some r2 →
      rows_apart r1 r2.

(** A store where the [flights.csv] of N8 cannot be read. *)
Definition fs_broken : filesystem := {[ "N8" := Some Unreadable ]}.

(** ** Durations and the order of instants *)

(** The duration, in hours, that [calc_duration_hours] computes for a
    flight of [m] minutes. *)
Definition hours_of_minutes (m : Z) : Q := round2 (inject_Z (60 * m) / 3600).

(** The duration is between 0 and 23.98 hours, and 0 only for no minutes. *)
Definition duration_in_range (m : Z) : bool :=
  Qle_bool 0 (hours_of_minutes m)
  && Qle_bool (hours_of_minutes m) (2398 # 100)
  && Bool.eqb (Qeq_bool (hours_of_minutes m) 0) (m =? 0).

(** The first date and time is earlier than the second, field by field. *)
Definition earlier (Y m d H M Y' m' d' H' M' : Z) : Prop :=
  Y < Y' ∨ (Y = Y' ∧ (m < m' ∨ (m = m' ∧ (d < d' ∨ (d = d' ∧
    (H < H' ∨ (H = H' ∧ M < M'))))))).

(** ** The handlers of the form

    The handlers of [FlightLoggerGUI] are functions of the text of the
    entry fields and of the store; what they show (a message box, the
    status line, the history window) is their result.  The widgets
    themselves and the list of saved aircraft are not modelled. *)

(** [int(s)] for a string: an optional sign, then decimal digits that
    single underscores may separate; white space around is ignored.  A
    text of more than 4300 digits is refused with a [ValueError] (the
    limit of integer string conversion). *)
Fixpoint count_digits (s : string) : Z :=
  match s with
  | EmptyString => 0
  | String c r =>
      (if (48 <=? Str.code c) && (Str.code c <=? 57) then 1 else 0) + count_digits r
  end.

Fixpoint int_digits (s : string) (acc : Z) (after_digit : bool) : option Z :=
  match s with
  | EmptyString => if after_digit then Some acc else None
  | String c r =>
      let v := Str.code c - 48 in
      if (0 <=? v) && (v <=? 9) then int_digits r (10 * acc + v) true
      else if Ascii.eqb c "_" && after_digit then int_digits r acc false
      else None
  end.

Definition py_int (s : string) : option Z :=
  if 4300 <? count_digits s then None
  else
    match Str.strip s with
    | String "+" r => int_digits r 0 false
    | String "-" r => Z.opp <$> int_digits r 0 false
    | r => int_digits r 0 false
    end.

Inductive dialog : Type :=
| showerror_Missing_fields                 (* "Please fill in all fields." *)
| showerror_Invalid_input                  (* "Number of landings must be an integer." *)
| status_set (msg : message)               (* the status line; the list is refreshed *)
| showwarning_Not_added (msg : message)
| showerror_No_Tail_Number
| showinfo_No_Data (tail : string)
| history_window (tail : string) (rows : list row).

Definition is_empty (s : string) : bool :=
  match s with EmptyString => true | String _ _ => false end.

(** [FlightLoggerGUI._on_add_flight] *)
Definition on_add_flight
    (date_var tail_var takeoff_var landing_var landings_var : string)
    (fs : filesystem) : result dialog * filesystem :=
  let date := Str.strip date_var in
  let tail := Str.strip tail_var in
  let takeoff := Str.strip takeoff_var in
  let landing := Str.strip landing_var in
  let landings := Str.strip landings_var in
  if is_empty date || is_empty tail || is_empty takeoff || is_empty landing
     || is_empty landings
  then (Ok showerror_Missing_fields, fs)
  else
    match py_int landings with
    | None => (Ok showerror_Invalid_input, fs)      (* except ValueError *)
    | Some n =>
        let '(out, fs) := add_flight_record date tail takeoff landing n fs in
        match out with
        | Raise e => (Raise e, fs)
        | Ok (true, msg) => (Ok (status_set msg), fs)
        | Ok (false, msg) => (Ok (showwarning_Not_added msg), fs)
        end
    end.

(** [FlightLoggerGUI._on_view_history] *)
Definition on_view_history (tail_var : string) (fs : filesystem)
  : dialog * filesystem :=
  let tail := Str.upper (Str.strip tail_var) in
  if is_empty tail then (showerror_No_Tail_Number, fs)
  else
    let '(df, fs) := read_flights_df tail fs in
    match df with
    | [] => (showinfo_No_Data tail, fs)
    | _ :: _ => (history_window tail df, fs)    (* one line for each row, in order *)
    end.

(** ** The values that a ledger file keeps as they are

    [df.to_csv] writes the frame as text and [pd.read_csv] types every
    column of that text anew.  The rows of [file] stand for the frame that
    [pd.read_csv] returns, so a frame that is written is the frame that is
    read only for values that the text gives back: dates and times that
    are made of digits, [-] and [:] (no comma, quote or line break, no
    white space, nothing that reads as a number or as a missing value),
    tail numbers that are a letter followed by letters, digits and [-]
    with a digit among them (one path component, not a number, a boolean
    or a missing value), hours that are a whole number of hundredths up to
    a million (where the nearest [float] of the sum and of the rounding is
    the nearest [float] of the exact result), and integers of the [int64]
    range. *)

Definition fits_int64 (v : Z) : bool := (- 2 ^ 63 <=? v) && (v <? 2 ^ 63).

Definition is_digit (c : ascii) : bool :=
  (48 <=? Str.code c) && (Str.code c <=? 57).

Definition is_capital (c : ascii) : bool :=
  (65 <=? Str.code c) && (Str.code c <=? 90).

Definition is_dash_or_colon (c : ascii) : bool :=
  Ascii.eqb c "-" || Ascii.eqb c ":".

Fixpoint all_chars (p : ascii → bool) (s : string) : bool :=
  match s with
  | EmptyString => true
  | String c r => p c && all_chars p r
  end.

Fixpoint some_char (p : ascii → bool) (s : string) : bool :=
  match s with
  | EmptyString => false
  | String c r => p c || some_char p r
  end.

Definition plain_text (s : string) : bool :=
  match s with
  | EmptyString => false
  | String _ r =>
      all_chars (λ c, is_digit c || is_dash_or_colon c) s
      && some_char is_dash_or_colon r
  end.

Definition plain_name (s : string) : bool :=
  match s with
  | EmptyString => false
  | String c r =>
      is_capital c
      && all_chars (λ c, is_capital c || is_digit c || Ascii.eqb c "-") r
      && some_char is_digit r
      && (Z.of_nat (String.length s) <=? 64)
  end.

(** A whole number of hundredths. *)
Definition hundredths (x : Q) : bool := (Qnum x * 100) mod Z.pos (Qden x) =? 0.

Definition plain_hours (x : Q) : bool :=
  hundredths x && Qle_bool 0 x && Qle_bool x 1000000.

(** The text columns and the columns of hours of a row are plain. *)
Definition plain_cells (r : row) : bool :=
  plain_text (Date r) && plain_name (Tail_Number r)
  && plain_text (Takeoff_Time r) && plain_text (Landing_Time r)
  && plain_hours (Flight_Duration r) && plain_hours (Total_Hours_After_Flight r).

Definition plain_row (r : row) : bool :=
  plain_cells r
  && fits_int64 (Landings_This_Flight r)
  && fits_int64 (Total_Landings_After_Flight r).

Definition plain_ledger (df : list row) : bool := forallb plain_row df.

(** ** The columns of integers in the file

    A column of integers that all fit [int64] is read back as it is.
    When the frame that was read has rows, its column is [int64], and the
    integer of the new row is in the [uint64] range above [int64],
    [df.append] turns the column into [float64]: every value of it, old
    and new, becomes the nearest [float] and is read back as such.  The
    other cases ([uint64] and [object] columns) are not modelled. *)

(** The nearest [float64] of an integer, ties to even; a [float64] of
    this size is a whole number. *)
Definition float64_of_Z (v : Z) : Z :=
  let e := Z.log2 (Z.abs v) - 52 in
  if e <=? 0 then v
  else
    let q := Z.abs v / 2 ^ e in
    let q' :=
      match Z.abs v mod 2 ^ e ?= 2 ^ (e - 1) with
      | Lt => q
      | Gt => q + 1
      | Eq => if Z.even q then q else q + 1
      end in
    Z.sgn v * (q' * 2 ^ e).

(** The column [l], whose last value is the one of the appended row, as
    [pd.read_csv] returns it after [df.append] and [to_csv]. *)
Definition stored_ints (l : list Z) : option (list Z) :=
  if forallb fits_int64 l then Some l
  else
    match last l, removelast l with
    | Some v, _ :: _ as old =>
        if forallb fits_int64 old && (2 ^ 63 <=? v) && (v <? 2 ^ 64)
        then Some (float64_of_Z <$> l)
        else None
    | _, _ => None
    end.

Definition with_ints (r : row) (landings : Z * Z) : row :=
  {| Date := Date r;
     Tail_Number := Tail_Number r;
     Takeoff_Time := Takeoff_Time r;
     Landing_Time := Landing_Time r;
     Flight_Duration := Flight_Duration r;
     Landings_This_Flight := fst landings;
     Total_Hours_After_Flight := Total_Hours_After_Flight r;
     Total_Landings_After_Flight := snd landings |}.

(** The frame that [pd.read_csv] returns for the file that [to_csv]
    writes from [df], the frame that was read followed by the new row;
    [None] where this is not modelled. *)
Definition to_csv_read_csv (df : list row) : option (list row) :=
  if forallb plain_cells df then
    this ← stored_ints (Landings_This_Flight <$> df);
    total ← stored_ints (Total_Landings_After_Flight <$> df);
    Some (zip_with with_ints df (zip this total))
  else None.

(** [add_flight_record] with the ledger of the aircraft left as the next
    [read_flights_df] returns it. *)
Definition add_flight_record_stored (date_str tail takeoff landing : string)
    (landings_this : Z) (fs : filesystem)
  : option (result (bool * message) * filesystem) :=
  let '(out, fs) := add_flight_record date_str tail takeoff landing landings_this fs in
  if succeeded out then
    df ← to_csv_read_csv (load tail fs);
    Some (out, <[Str.upper (Str.strip tail) := Some (Csv df)]> fs)
  else Some (out, fs).

Fixpoint run_stored (calls : list call) (fs : filesystem) : option filesystem :=
  match calls with
  | [] => Some fs
  | c :: rest =>
      out ← add_flight_record_stored (c_date c) (c_entity c) (c_takeoff c)
               (c_landing c) (c_count c) fs;
      run_stored rest (snd out)
  end.

(** Every call names no aircraft or names it plainly, and the ledger of
    its aircraft is plain after the calls.  A ledger only grows, so it is
    then plain after each of the calls, and before them. *)
Definition plain_calls (calls : list call) (fs : filesystem) : bool :=
  forallb (λ c,
    let tn := Str.upper (Str.strip (c_entity c)) in
    is_empty tn || (plain_name tn && plain_ledger (load tn (run calls fs)))) calls.

(** Two flights of N9 with counts whose sum is past [int64]. *)
Definition calls_big : list call :=
  [ Call "2024-05-01" "N9" "08:00" "08:20" (2 ^ 63 - 1);
    Call "2024-05-01" "N9" "09:00" "09:20" (2 ^ 63 - 1) ].
(** ** Files of any content

    [read_flights_df] returns whatever [pd.read_csv] makes of the file:
    a frame with the columns and the lines of the file, which need not
    be the eight columns of a ledger.  The store below keeps such frames;
    the store of ledgers above is the part of it where every file that
    can be read has the eight columns and values of their types. *)

(** A value of a frame, as [pd.read_csv] types it. *)
Inductive cell : Type :=
| Text (s : string)
| Integer (z : Z)
| Number (q : Q)
| Missing.

Record frame : Type := Frame {
  columns : list string;
  lines : list (list cell)
}.

Inductive any_file : Type :=
| Not_a_table               (* [pd.read_csv] raises on it *)
| Table (df : frame).       (* what [pd.read_csv] returns for it *)

Abbreviation disk := (gmap string (option any_file)).

Definition cols : list string :=
  [ "Date"; "Tail Number"; "Takeoff Time"; "Landing Time";
    "Flight Duration (hrs)"; "Landings This Flight";
    "Total Hours After Flight"; "Total Landings After Flight" ].

(** [read_flights_df] on a store of files of any content. *)
Definition read_flights_frame (tail_number : string) (d : disk) : frame * disk :=
  let tn := Str.upper (Str.strip tail_number) in
  let path := tn in
  let d := match d !! path with Some _ => d | None => <[path := None]> d end in
  match d !! path with
  | Some (Some (Table df)) => (df, d)
  | Some (Some Not_a_table) => (Frame cols [], d)    (* except Exception: pass *)
  | _ => (Frame cols [], d)                           (* not os.path.exists(path) *)
  end.

Definition line_of_row (r : row) : list cell :=
  [ Text (Date r); Text (Tail_Number r); Text (Takeoff_Time r);
    Text (Landing_Time r); Number (Flight_Duration r);
    Integer (Landings_This_Flight r); Number (Total_Hours_After_Flight r);
    Integer (Total_Landings_After_Flight r) ].

Definition frame_of_rows (df : list row) : frame :=
  Frame cols (line_of_row <$> df).

Definition any_of_file (f : file) : any_file :=
  match f with
  | Unreadable => Not_a_table
  | Csv df => Table (frame_of_rows df)
  end.

Definition disk_of (fs : filesystem) : disk :=
  (λ x : option file, any_of_file <$> x) <$> fs.

(** A store where the [flights.csv] of N8 holds two lines of other text. *)
Definition disk_other : disk :=
  {[ "N8" := Some (Table (Frame ["hello"] [[Text "world"]])) ]}.

(** ** Sanity checks on concrete inputs *)

Example ex_parse_1 : parse_datetime "2024-01-01" "23:30" = Ok (Cal.minutes 2024 1 1 23 30).
Proof. reflexivity. Qed.

Example ex_parse_short : parse_datetime " 2024-1-5" "9:5 " = Ok (Cal.minutes 2024 1 5 9 5).
Proof. reflexivity. Qed.

Example ex_dur_1 : calc_duration_hours "2024-01-01" "23:30" "00:15" = Ok (3 # 4)%Q.
Proof. reflexivity. Qed.

Example ex_record_1 :
  load "N123AB" fs_one =
    [Row "2024-01-01" "N123AB" "10:00" "12:00" 2 1 2 1].
Proof. vm_compute. reflexivity. Qed.

Example ex_record_overlap :
  record "2024-01-01" "N123AB" "11:00" "11:30" 1 fs_one
  = (Ok (false, Overlap_detected), fs_one).
Proof. vm_compute. reflexivity. Qed.

Example ex_record_touch :
  fst (record "2024-01-01" "N123AB" "12:00" "13:00" 1 fs_one)
  = Ok (true, Flight_added).
Proof. vm_compute. reflexivity. Qed.

(** ** The storage layer *)

Section Storage.

Implicit Types (fs : filesystem) (tail path : string).

Lemma lookup_makedirs path fs :
  makedirs path fs !! path
  = match fs !! path with Some x => Some x | None => Some None end.
Proof.
  unfold makedirs. destruct (fs !! path) eqn:E.
  - exact E.
  - apply lookup_insert_eq.
Qed.

Lemma lookup_makedirs_ne path path' fs :
  path ≠ path' → makedirs path fs !! path' = fs !! path'.
Proof.
  intros Hne. unfold makedirs. destruct (fs !! path); [reflexivity|].
  by apply lookup_insert_ne.
Qed.

Lemma makedirs_exists path fs x : fs !! path = Some x → makedirs path fs = fs.
Proof. intros E. unfold makedirs. by rewrite E. Qed.

Lemma read_flights_df_fs tail fs :
  snd (read_flights_df tail fs) = makedirs (Str.upper (Str.strip tail)) fs.
Proof.
  unfold read_flights_df, flights_csv_path, aircraft_folder.
  destruct (makedirs _ fs !! _) as [[[|df]|]|]; reflexivity.
Qed.

Lemma load_lookup tail fs :
  load tail fs
  = match fs !! Str.upper (Str.strip tail) with
    | Some (Some (Csv df)) => df
    | _ => []
    end.
Proof.
  unfold load, read_flights_df, flights_csv_path, aircraft_folder.
  rewrite lookup_makedirs.
  destruct (fs !! _) as [[[|df]|]|]; reflexivity.
Qed.

Lemma read_flights_df_load tail fs :
  read_flights_df tail fs = (load tail fs, makedirs (Str.upper (Str.strip tail)) fs).
Proof.
  rewrite <- read_flights_df_fs. unfold load.
  by destruct (read_flights_df tail fs).
Qed.

Lemma load_makedirs tail path fs : load tail (makedirs path fs) = load tail fs.
Proof.
  rewrite !load_lookup.
  destruct (decide (path = Str.upper (Str.strip tail))) as [->|Hne].
  - rewrite lookup_makedirs. by destruct (fs !! _).
  - by rewrite lookup_makedirs_ne.
Qed.

End Storage.

(** ** Reading files of any content *)

Lemma read_flights_frame_lookup entity_id (d : disk) :
  fst (read_flights_frame entity_id d)
  = match d !! Str.upper (Str.strip entity_id) with
    | Some (Some (Table table)) => table
    | _ => Frame cols []
    end.
Proof.
  unfold read_flights_frame. cbv zeta.
  destruct (d !! Str.upper (Str.strip entity_id)) as [[[|table]|]|] eqn:E;
    rewrite ?E, ?lookup_insert_eq; reflexivity.
Qed.

Lemma read_flights_frame_disk entity_id (d : disk) :
  snd (read_flights_frame entity_id d)
  = match d !! Str.upper (Str.strip entity_id) with
    | Some _ => d
    | None => <[Str.upper (Str.strip entity_id) := None]> d
    end.
Proof.
  unfold read_flights_frame. cbv zeta.
  destruct (d !! Str.upper (Str.strip entity_id)) as [[[|table]|]|] eqn:E;
    rewrite ?E, ?lookup_insert_eq; reflexivity.
Qed.

Lemma lookup_disk_of (fs : filesystem) path :
  disk_of fs !! path = (λ x : option file, any_of_file <$> x) <$> fs !! path.
Proof. unfold disk_of. apply lookup_fmap. Qed.

Lemma disk_of_makedirs path (fs : filesystem) :
  disk_of (makedirs path fs)
  = match disk_of fs !! path with
    | Some _ => disk_of fs
    | None => <[path := None]> (disk_of fs)
    end.
Proof.
  rewrite lookup_disk_of. unfold makedirs.
  destruct (fs !! path) as [x|]; [reflexivity|].
  unfold disk_of. by rewrite fmap_insert.
Qed.




(** ** Normalising a tail number *)

Section Normalise.

Import Str.

Lemma isspace_upper_char c : isspace (upper_char c) = isspace c.
Proof. destruct c as [[] [] [] [] [] [] [] []]; reflexivity. Qed.

Lemma upper_char_idem c : upper_char (upper_char c) = upper_char c.
Proof. destruct c as [[] [] [] [] [] [] [] []]; reflexivity. Qed.

Lemma upper_idem s : upper (upper s) = upper s.
Proof. induction s as [|c r IH]; simpl; [|rewrite upper_char_idem, IH]; reflexivity. Qed.

Lemma lstrip_upper s : lstrip (upper s) = upper (lstrip s).
Proof.
  induction s as [|c r IH]; simpl; [reflexivity|].
  rewrite isspace_upper_char. destruct (isspace c); [exact IH | reflexivity].
Qed.

Lemma rstrip_upper s : rstrip (upper s) = upper (rstrip s).
Proof.
  induction s as [|c r IH]; simpl; [reflexivity|].
  rewrite IH, isspace_upper_char.
  destruct (rstrip r); simpl; [destruct (isspace c)|]; reflexivity.
Qed.

Lemma strip_upper s : strip (upper s) = upper (strip s).
Proof. unfold strip. by rewrite lstrip_upper, rstrip_upper. Qed.

Lemma lstrip_head s :
  lstrip s = EmptyString ∨ ∃ c r, lstrip s = String c r ∧ isspace c = false.
Proof.
  induction s as [|c r IH]; simpl; [by left|].
  destruct (isspace c) eqn:E; [exact IH|]. right. by exists c, r.
Qed.

Lemma rstrip_cons c r : isspace c = false → rstrip (String c r) = String c (rstrip r).
Proof. intros E. simpl. rewrite E. by destruct (rstrip r). Qed.

Lemma rstrip_idem s : rstrip (rstrip s) = rstrip s.
Proof.
  induction s as [|c r IH]; simpl; [reflexivity|].
  destruct (rstrip r) as [|a r'] eqn:E.
  - destruct (isspace c) eqn:Ec; simpl; [|rewrite Ec]; reflexivity.
  - change (rstrip (String c (String a r'))) with
      (match rstrip (String a r') with
       | EmptyString => if isspace c then EmptyString else String c EmptyString
       | x => String c x
       end).
    by rewrite IH.
Qed.

Lemma strip_idem s : strip (strip s) = strip s.
Proof.
  unfold strip. destruct (lstrip_head s) as [->|(c & r & -> & Ec)]; [reflexivity|].
  rewrite (rstrip_cons c r Ec). simpl lstrip. rewrite Ec.
  rewrite (rstrip_cons c _ Ec). by rewrite rstrip_idem.
Qed.

(** [tail.strip().upper()] applied twice is the same as once: the tail
    normalised in [add_flight_record] names the folder that
    [aircraft_folder] computes from it. *)
Lemma normalise_idem s : upper (strip (upper (strip s))) = upper (strip s).
Proof. by rewrite strip_upper, strip_idem, upper_idem. Qed.

End Normalise.

(** ** The three copies of the rollover code agree *)

Lemma calc_duration_hours_interval d t l :
  calc_duration_hours d t l
  = match interval d t l with
    | Ok (t1, t2) => Ok (round2 (inject_Z (60 * (t2 - t1)) / 3600))
    | Raise e => Raise e
    end.
Proof.
  unfold calc_duration_hours, interval.
  destruct (parse_datetime d t) as [t1|]; [|reflexivity].
  destruct (parse_datetime d l) as [t2|]; [|reflexivity].
  destruct (if t2 <? t1 then _ else _); reflexivity.
Qed.

Lemma existing_interval_interval r :
  existing_interval r = interval (Date r) (Takeoff_Time r) (Landing_Time r).
Proof. reflexivity. Qed.

Lemma detect_overlap_interval tail d t l fs :
  detect_overlap tail d t l fs
  = (match load tail fs with
     | [] => Ok false
     | df =>
         match interval d t l with
         | Ok (new_start, new_end) => Ok (overlap_loop new_start new_end df)
         | Raise e => Raise e
         end
     end, makedirs (Str.upper (Str.strip tail)) fs).
Proof.
  unfold detect_overlap, interval. rewrite read_flights_df_load.
  destruct (load tail fs) as [|r df]; [reflexivity|].
  destruct (parse_datetime d t) as [t1|]; [|reflexivity].
  destruct (parse_datetime d l) as [t2|]; [|reflexivity].
  destruct (if t2 <? t1 then _ else _); reflexivity.
Qed.

Lemma overlap_loop_true new_start new_end (df : list row) :
  overlap_loop new_start new_end df = true
  ↔ ∃ r existing_start existing_end,
      r ∈ df ∧ existing_interval r = Ok (existing_start, existing_end)
      ∧ new_start < existing_end ∧ new_end > existing_start.
Proof.
  induction df as [|r df IH]; simpl.
  - split; [discriminate|]. intros (r & ? & ? & Hin & _). by apply elem_of_nil in Hin.
  - destruct (existing_interval r) as [[es ee]|e] eqn:E.
    + destruct ((new_start <? ee) && (new_end >? es)) eqn:B.
      * split; [intros _|reflexivity].
        apply andb_true_iff in B as [B1 B2].
        exists r, es, ee. split; [left|]. split; [exact E|]. lia.
      * rewrite IH. split.
        -- intros (r' & es' & ee' & Hin & H). exists r', es', ee'.
           split; [by right | exact H].
        -- intros (r' & es' & ee' & Hin & E' & H1 & H2).
           apply elem_of_cons in Hin as [->|Hin].
           ++ rewrite E in E'. injection E' as <- <-.
              apply andb_false_iff in B. lia.
           ++ by exists r', es', ee'.
    + rewrite IH. split.
      * intros (r' & es' & ee' & Hin & H). exists r', es', ee'.
        split; [by right | exact H].
      * intros (r' & es' & ee' & Hin & E' & H).
        apply elem_of_cons in Hin as [->|Hin]; [congruence|].
        by exists r', es', ee'.
Qed.

(** ** What [add_flight_record] does, step by step *)

Lemma load_normalised tail fs : load (Str.upper (Str.strip tail)) fs = load tail fs.
Proof. by rewrite !load_lookup, normalise_idem. Qed.

Lemma load_nonempty_makedirs tail fs :
  load tail fs ≠ [] → makedirs (Str.upper (Str.strip tail)) fs = fs.
Proof.
  rewrite load_lookup. destruct (fs !! _) as [x|] eqn:E; [|done].
  intros _. by apply makedirs_exists with x.
Qed.

Lemma insert_makedirs path (x : option file) (fs : filesystem) :
  <[path := x]> (makedirs path fs) = <[path := x]> fs.
Proof.
  unfold makedirs. destruct (fs !! path); [reflexivity|]. apply insert_insert_eq.
Qed.

Lemma add_flight_record_steps d tail t l n fs :
  add_flight_record d tail t l n fs
  = let tn := Str.upper (Str.strip tail) in
    match tn with
    | EmptyString => (Ok (false, Tail_number_required), fs)
    | String _ _ =>
        match interval d t l with
        | Raise e => (Ok (false, Date_time_parse_error e), fs)
        | Ok (t1, t2) =>
            if overlap_loop t1 t2 (load tn fs)
            then (Ok (false, Overlap_detected), fs)
            else
              let duration := round2 (inject_Z (60 * (t2 - t1)) / 3600) in
              let prev_hours :=
                match last (load tn fs) with
                | None => 0%Q | Some r => Total_Hours_After_Flight r end in
              let prev_landings :=
                match last (load tn fs) with
                | None => 0 | Some r => Total_Landings_After_Flight r end in
              (Ok (true, Flight_added),
               <[tn := Some (Csv (load tn fs ++
                   [Row d tn t l duration n
                      (round2 (prev_hours + duration)) (prev_landings + n)]))]> fs)
        end
    end.
Proof.
  unfold add_flight_record. cbv zeta.
  destruct (Str.upper (Str.strip tail)) as [|c0 tn0] eqn:Etn; [reflexivity|].
  rewrite <- Etn. clear c0 tn0 Etn.
  rewrite calc_duration_hours_interval, detect_overlap_interval.
  rewrite !normalise_idem, load_normalised.
  destruct (interval d t l) as [[t1 t2]|e]; [|reflexivity].
  destruct (load tail fs) as [|r0 df0] eqn:Eload.
  - simpl overlap_loop. cbv iota.
    rewrite read_flights_df_load, load_normalised, load_makedirs, Eload.
    simpl last. unfold write_flights_df, flights_csv_path, aircraft_folder.
    cbv beta iota. rewrite !normalise_idem. by rewrite !insert_makedirs.
  - rewrite <- Eload.
    assert (Hne : load tail fs ≠ []) by (rewrite Eload; discriminate).
    rewrite (load_nonempty_makedirs _ _ Hne).
    replace (match load tail fs with [] => Ok false | _ :: _ => Ok (overlap_loop t1 t2 (load tail fs)) end)
      with (Ok (A:=bool) (overlap_loop t1 t2 (load tail fs))) by (rewrite Eload; reflexivity).
    destruct (overlap_loop t1 t2 (load tail fs)); [reflexivity|].
    rewrite read_flights_df_load, load_normalised, normalise_idem.
    rewrite (load_nonempty_makedirs _ _ Hne).
    unfold write_flights_df, flights_csv_path, aircraft_folder.
    destruct (last (load tail fs)); cbv beta iota;
      by rewrite !normalise_idem, insert_makedirs.
Qed.

(** ** Rejections *)

Lemma record_never_raises date entity_id takeoff landing event_count fs :
  ∃ ok m, fst (record date entity_id takeoff landing event_count fs) = Ok (ok, m).
Proof.
  unfold record. rewrite add_flight_record_steps. cbv zeta.
  destruct (Str.upper _); [by eexists _, _|].
  destruct (interval _ _ _) as [[t1 t2]|e]; [|by eexists _, _].
  destruct (overlap_loop _ _ _); by eexists _, _.
Qed.

Lemma record_rejected_unchanged date entity_id takeoff landing event_count fs m :
  fst (record date entity_id takeoff landing event_count fs) = Ok (false, m) →
  snd (record date entity_id takeoff landing event_count fs) = fs.
Proof.
  unfold record. rewrite add_flight_record_steps. cbv zeta.
  destruct (Str.upper _); [reflexivity|].
  destruct (interval _ _ _) as [[t1 t2]|e]; [|reflexivity].
  destruct (overlap_loop _ _ _); [reflexivity|]. intros H. discriminate H.
Qed.

(** C4. A call of [record] is rejected with [success = false] when the
    normalised entity identifier is empty, when the date or a time does
    not parse, and when an overlap is detected (then with the message
    "Overlap detected with existing flight."); whenever [record] returns
    [false], the store it leaves is the store it was given, so [load]
    returns the same sequence for every entity. *)
Theorem rejection_leaves_no_trace
    (date entity_id takeoff landing : string) (event_count : Z) (fs : filesystem) :
  let tn := Str.upper (Str.strip entity_id) in
  let out := record date entity_id takeoff landing event_count fs in
  (tn = EmptyString → fst out = Ok (false, Tail_number_required))
  ∧ (∀ e, tn ≠ EmptyString →
       calc_duration_hours date takeoff landing = Raise e →
       fst out = Ok (false, Date_time_parse_error e))
  ∧ (tn ≠ EmptyString →
     is_ok (calc_duration_hours date takeoff landing) = true →
     fst (detect_overlap tn date takeoff landing fs) = Ok true →
     fst out = Ok (false, Overlap_detected)
     ∧ message_text Overlap_detected = "Overlap detected with existing flight.")
  ∧ (∀ m, fst out = Ok (false, m) →
       snd out = fs ∧ ∀ id, load id (snd out) = load id fs).
Proof.
  intros tn out. subst out. unfold record.
  rewrite add_flight_record_steps, calc_duration_hours_interval. cbv zeta. fold tn.
  split; [|split; [|split]].
  - by intros ->.
  - intros e Hne Hc. destruct tn; [done|].
    destruct (interval _ _ _) as [[t1 t2]|e']; [discriminate|].
    injection Hc as ->. reflexivity.
  - intros Hne Hc Hov. split; [|reflexivity].
    rewrite detect_overlap_interval in Hov. cbn [fst] in Hov.
    destruct tn eqn:Etn; [done|]. rewrite <- Etn in *.
    destruct (interval _ _ _) as [[t1 t2]|e']; [|discriminate].
    destruct (load tn fs) as [|r0 df0]; [discriminate|].
    by replace (overlap_loop t1 t2 (r0 :: df0)) with true by congruence.
  - intros m Hm.
    assert (Hfs : snd (record date entity_id takeoff landing event_count fs) = fs).
    { apply record_rejected_unchanged with m. unfold record.
      rewrite add_flight_record_steps. exact Hm. }
    unfold record in Hfs. rewrite add_flight_record_steps in Hfs.
    cbv zeta in Hfs. fold tn in Hfs. split; [exact Hfs|].
    intros id. by rewrite Hfs.
Qed.

Lemma rejection_leaves_no_trace_witness :
  fst (record "2024-01-01" "N123AB" "11:00" "11:30" 1 fs_one)
    = Ok (false, Overlap_detected)
  ∧ snd (record "2024-01-01" "N123AB" "11:00" "11:30" 1 fs_one) = fs_one
  ∧ load "N123AB" (snd (record "2024-01-01" "N123AB" "11:00" "11:30" 1 fs_one))
    = load "N123AB" fs_one.
Proof.
  pose proof (rejection_leaves_no_trace
                "2024-01-01" "N123AB" "11:00" "11:30" 1 fs_one) as H.
  cbv zeta in H. destruct H as (_ & _ & Hov & Hsame).
  assert (Hrej : fst (record "2024-01-01" "N123AB" "11:00" "11:30" 1 fs_one)
                 = Ok (false, Overlap_detected)).
  { apply Hov; [discriminate | reflexivity | vm_compute; reflexivity]. }
  split; [exact Hrej|].
  destruct (Hsame _ Hrej) as [H1 H2]. split; [exact H1 | apply H2].
Defined.

(** ** Accepted flights *)

Lemma load_insert id df (fs : filesystem) :
  load id (<[Str.upper (Str.strip id) := Some (Csv df)]> fs) = df.
Proof. by rewrite load_lookup, lookup_insert_eq. Qed.

Lemma load_insert_ne id id' x (fs : filesystem) :
  Str.upper (Str.strip id) ≠ Str.upper (Str.strip id') →
  load id' (<[Str.upper (Str.strip id) := x]> fs) = load id' fs.
Proof. intros Hne. by rewrite !load_lookup, lookup_insert_ne. Qed.

Lemma record_accepted date entity_id takeoff landing event_count fs t1 t2 :
  Str.upper (Str.strip entity_id) ≠ EmptyString →
  interval date takeoff landing = Ok (t1, t2) →
  overlap_loop t1 t2 (load entity_id fs) = false →
  record date entity_id takeoff landing event_count fs
  = (Ok (true, Flight_added),
     <[Str.upper (Str.strip entity_id) :=
         Some (Csv (load entity_id fs ++
                    [new_row (load entity_id fs) date (Str.upper (Str.strip entity_id))
                       takeoff landing event_count t1 t2]))]> fs).
Proof.
  intros Hne Hi Hov. unfold record. rewrite add_flight_record_steps. cbv zeta.
  rewrite load_normalised, Hi, Hov.
  destruct (Str.upper (Str.strip entity_id)); [done|reflexivity].
Qed.

Lemma record_overlapping date entity_id takeoff landing event_count fs t1 t2 :
  Str.upper (Str.strip entity_id) ≠ EmptyString →
  interval date takeoff landing = Ok (t1, t2) →
  overlap_loop t1 t2 (load entity_id fs) = true →
  record date entity_id takeoff landing event_count fs
  = (Ok (false, Overlap_detected), fs).
Proof.
  intros Hne Hi Hov. unfold record. rewrite add_flight_record_steps. cbv zeta.
  rewrite load_normalised, Hi, Hov.
  destruct (Str.upper (Str.strip entity_id)); [done|reflexivity].
Qed.

Lemma record_success_inv date entity_id takeoff landing event_count fs m :
  fst (record date entity_id takeoff landing event_count fs) = Ok (true, m) →
  ∃ t1 t2,
    Str.upper (Str.strip entity_id) ≠ EmptyString
    ∧ interval date takeoff landing = Ok (t1, t2)
    ∧ overlap_loop t1 t2 (load entity_id fs) = false.
Proof.
  unfold record. rewrite add_flight_record_steps. cbv zeta.
  rewrite load_normalised.
  destruct (Str.upper (Str.strip entity_id)); [discriminate|].
  destruct (interval _ _ _) as [[t1 t2]|e]; [|discriminate].
  destruct (overlap_loop _ _ _) eqn:Hov; [discriminate|].
  intros _. by exists t1, t2.
Qed.

(** ** Plain ledgers are read back as they were written *)

Lemma plain_ledger_app (df1 df2 : list row) :
  plain_ledger (df1 ++ df2) = plain_ledger df1 && plain_ledger df2.
Proof. apply forallb_app. Qed.

Lemma forallb_fmap {A B} (f : A → B) (p : B → bool) (l : list A) :
  forallb p (f <$> l) = forallb (λ x, p (f x)) l.
Proof.
  induction l as [|x l IH]; [reflexivity|].
  cbn [fmap list_fmap forallb]. by rewrite <- IH.
Qed.

Lemma forallb_impl {A} (p q : A → bool) (l : list A) :
  (∀ x, p x = true → q x = true) → forallb p l = true → forallb q l = true.
Proof.
  intros Hpq. induction l as [|x l IH]; [done|]. simpl.
  intros [Hx Hl]%andb_true_iff. by rewrite (Hpq x Hx), (IH Hl).
Qed.

Lemma zip_with_ints (df : list row) :
  zip_with with_ints df
    (zip (Landings_This_Flight <$> df) (Total_Landings_After_Flight <$> df)) = df.
Proof.
  induction df as [|r df IH]; [reflexivity|].
  cbn [fmap list_fmap zip zip_with]. rewrite IH. by destruct r.
Qed.

Lemma to_csv_read_csv_plain (df : list row) :
  plain_ledger df = true → to_csv_read_csv df = Some df.
Proof.
  intros Hp. unfold to_csv_read_csv, stored_ints.
  assert (H1 : forallb plain_cells df = true).
  { revert Hp. apply forallb_impl. intros r. unfold plain_row.
    by intros [[? _]%andb_true_iff _]%andb_true_iff. }
  assert (H2 : forallb fits_int64 (Landings_This_Flight <$> df) = true).
  { rewrite forallb_fmap. revert Hp. apply forallb_impl. intros r. unfold plain_row.
    by intros [[_ ?]%andb_true_iff _]%andb_true_iff. }
  assert (H3 : forallb fits_int64 (Total_Landings_After_Flight <$> df) = true).
  { rewrite forallb_fmap. revert Hp. apply forallb_impl. intros r. unfold plain_row.
    by intros [_ ?]%andb_true_iff. }
  rewrite H1, H2, H3. simpl. by rewrite zip_with_ints.
Qed.

Lemma succeeded_inv (out : result (bool * message)) :
  succeeded out = true → ∃ m, out = Ok (true, m).
Proof. destruct out as [[[|] m]|]; try discriminate. by exists m. Qed.

(** When the ledger that an accepted call leaves is plain, the next read
    returns it as [add_flight_record] wrote it. *)
Lemma add_flight_record_stored_plain date tail takeoff landing n fs :
  (succeeded (fst (record date tail takeoff landing n fs)) = true →
   plain_ledger (load tail (snd (record date tail takeoff landing n fs))) = true) →
  add_flight_record_stored date tail takeoff landing n fs
  = Some (record date tail takeoff landing n fs).
Proof.
  intros Hp. unfold add_flight_record_stored.
  change (add_flight_record date tail takeoff landing n fs)
    with (record date tail takeoff landing n fs).
  destruct (record date tail takeoff landing n fs) as [out fs'] eqn:E.
  cbn [fst snd] in Hp.
  destruct (succeeded out) eqn:Hs; [|reflexivity].
  rewrite (to_csv_read_csv_plain _ (Hp eq_refl)). cbn.
  destruct (succeeded_inv _ Hs) as [m ->].
  assert (Hok : fst (record date tail takeoff landing n fs) = Ok (true, m))
    by (by rewrite E).
  destruct (record_success_inv _ _ _ _ _ _ _ Hok) as (t1 & t2 & Hne & Hi & Hov).
  rewrite (record_accepted _ _ _ _ _ _ _ _ Hne Hi Hov) in E.
  injection E as <- <-. rewrite load_insert. by rewrite insert_insert_eq.
Qed.




(** ** The overlap test *)

Lemma overlap_loop_app new_start new_end (df1 df2 : list row) :
  overlap_loop new_start new_end (df1 ++ df2)
  = overlap_loop new_start new_end df1 || overlap_loop new_start new_end df2.
Proof.
  induction df1 as [|r df1 IH]; simpl; [reflexivity|].
  destruct (existing_interval r) as [[es ee]|]; [|exact IH].
  destruct ((new_start <? ee) && (new_end >? es)); [reflexivity | exact IH].
Qed.

Lemma overlap_loop_false new_start new_end (df : list row) :
  overlap_loop new_start new_end df = false
  ↔ ∀ r existing_start existing_end,
      r ∈ df → existing_interval r = Ok (existing_start, existing_end) →
      existing_end ≤ new_start ∨ new_end ≤ existing_start.
Proof.
  split.
  - intros Hf r es ee Hin Hi.
    destruct (Z_le_gt_dec ee new_start) as [?|H1]; [by left|].
    destruct (Z_le_gt_dec new_end es) as [?|H2]; [by right|].
    assert (Ht : overlap_loop new_start new_end df = true); [|congruence].
    apply overlap_loop_true. exists r, es, ee. repeat split; [done..|lia|lia].
  - intros H. apply not_true_is_false. intros Ht.
    apply overlap_loop_true in Ht as (r & es & ee & Hin & Hi & H1 & H2).
    destruct (H r es ee Hin Hi); lia.
Qed.

Lemma detect_overlap_loop tail date takeoff landing fs new_start new_end :
  interval date takeoff landing = Ok (new_start, new_end) →
  fst (detect_overlap tail date takeoff landing fs)
  = Ok (overlap_loop new_start new_end (load tail fs)).
Proof.
  intros Hi. rewrite detect_overlap_interval, Hi. cbn [fst].
  by destruct (load tail fs).
Qed.



(** ** Flights over midnight *)

Lemma record_rejects_intersecting date tail takeoff landing n fs r
    new_start new_end existing_start existing_end :
  Str.upper (Str.strip tail) ≠ EmptyString →
  r ∈ load tail fs →
  existing_interval r = Ok (existing_start, existing_end) →
  interval date takeoff landing = Ok (new_start, new_end) →
  new_start < existing_end → existing_start < new_end →
  record date tail takeoff landing n fs = (Ok (false, Overlap_detected), fs).
Proof.
  intros Hne Hin Hr Hi H1 H2.
  apply record_overlapping with new_start new_end; [done..|].
  apply overlap_loop_true. exists r, existing_start, existing_end.
  repeat split; [done..|lia].
Qed.

Lemma interval_rolled d t l t1 e0 t2 :
  parse_datetime d t = Ok t1 → parse_datetime d l = Ok e0 →
  interval d t l = Ok (t1, t2) →
  e0 < t1 → t2 = e0 + 1440 ∧ Cal.toordinal t2 = Cal.toordinal e0 + 1.
Proof.
  intros H1 H2 Hi Hlt. unfold interval in Hi. rewrite H1, H2 in Hi.
  destruct (Z.ltb_spec e0 t1) as [_|?]; [|lia].
  unfold Cal.add_days in Hi. destruct (_ && _); [|discriminate].
  injection Hi as <-. split; [lia|].
  unfold Cal.toordinal. replace (e0 + 1440 * 1) with (e0 + 1 * 1440) by lia.
  rewrite Z.div_add by lia. lia.
Qed.

(** C10. The overlap test compares instants, across dates.  An entry
    whose landing time is earlier than its takeoff time is rebuilt with
    its end 24 hours later, on the next calendar date; a request dated
    that next day that starts before this end and ends after the entry's
    start is rejected as overlapping.  Symmetrically, a request that
    lands over midnight is rejected when an entry dated the next day
    starts before the request's end and ends after its start. *)
Theorem overlap_across_midnight
    (date tail takeoff landing : string) (n : Z) (fs : filesystem) (r : row)
    (new_start new_end existing_start existing_end : Z) :
  Str.upper (Str.strip tail) ≠ EmptyString →
  r ∈ load tail fs →
  existing_interval r = Ok (existing_start, existing_end) →
  interval date takeoff landing = Ok (new_start, new_end) →
  (∀ e0,
     parse_datetime (Date r) (Takeoff_Time r) = Ok existing_start →
     parse_datetime (Date r) (Landing_Time r) = Ok e0 →
     e0 < existing_start →
     existing_end = e0 + 1440
     ∧ Cal.toordinal existing_end = Cal.toordinal e0 + 1
     ∧ (Cal.toordinal new_start = Cal.toordinal existing_end →
        new_start < existing_end → existing_start < new_end →
        record date tail takeoff landing n fs = (Ok (false, Overlap_detected), fs)))
  ∧ (∀ e0,
       parse_datetime date takeoff = Ok new_start →
       parse_datetime date landing = Ok e0 →
       e0 < new_start →
       new_end = e0 + 1440
       ∧ Cal.toordinal new_end = Cal.toordinal e0 + 1
       ∧ (Cal.toordinal existing_start = Cal.toordinal new_end →
          existing_start < new_end → new_start < existing_end →
          record date tail takeoff landing n fs = (Ok (false, Overlap_detected), fs))).
Proof.
  intros Hne Hin Hr Hi. split.
  - intros e0 Hs He Hlt.
    destruct (interval_rolled _ _ _ _ _ _ Hs He Hr Hlt) as [-> Hord].
    repeat split; [exact Hord|]. intros _ H1 H2.
    by apply record_rejects_intersecting with r new_start new_end existing_start (e0 + 1440).
  - intros e0 Hs He Hlt.
    destruct (interval_rolled _ _ _ _ _ _ Hs He Hi Hlt) as [-> Hord].
    repeat split; [exact Hord|]. intros _ H1 H2.
    by apply record_rejects_intersecting with r new_start (e0 + 1440) existing_start existing_end.
Qed.

Lemma overlap_across_midnight_witness :
  record "2024-01-02" "N77" "00:30" "02:00" 1 fs_night
    = (Ok (false, Overlap_detected), fs_night)
  ∧ record "2024-01-01" "N77" "23:00" "01:00" 1 fs_morning
    = (Ok (false, Overlap_detected), fs_morning).
Proof.
  split.
  - pose (r := Row "2024-01-01" "N77" "23:00" "01:00" 2 2 2 2).
    assert (Hin : r ∈ load "N77" fs_night).
    { replace (load "N77" fs_night) with [r] by (vm_compute; reflexivity).
      by apply list_elem_of_singleton. }
    destruct (overlap_across_midnight "2024-01-02" "N77" "00:30" "02:00" 1 fs_night r
                (Cal.minutes 2024 1 2 0 30) (Cal.minutes 2024 1 2 2 0)
                (Cal.minutes 2024 1 1 23 0) (Cal.minutes 2024 1 2 1 0))
      as [H _]; [discriminate | exact Hin | vm_compute; reflexivity.. |].
    destruct (H (Cal.minutes 2024 1 1 1 0)) as (_ & _ & Hrej);
      [vm_compute; reflexivity.. |].
    apply Hrej; vm_compute; reflexivity.
  - pose (r := Row "2024-01-02" "N77" "00:30" "02:00" (3 # 2) 1 (3 # 2) 1).
    assert (Hin : r ∈ load "N77" fs_morning).
    { replace (load "N77" fs_morning) with [r] by (vm_compute; reflexivity).
      by apply list_elem_of_singleton. }
    destruct (overlap_across_midnight "2024-01-01" "N77" "23:00" "01:00" 1 fs_morning r
                (Cal.minutes 2024 1 1 23 0) (Cal.minutes 2024 1 2 1 0)
                (Cal.minutes 2024 1 2 0 30) (Cal.minutes 2024 1 2 2 0))
      as [_ H]; [discriminate | exact Hin | vm_compute; reflexivity.. |].
    destruct (H (Cal.minutes 2024 1 1 1 0)) as (_ & _ & Hrej);
      [vm_compute; reflexivity.. |].
    apply Hrej; vm_compute; reflexivity.
Defined.

(** ** Flights of zero duration *)

Lemma interval_same_instant d t l x :
  parse_datetime d t = Ok x → parse_datetime d l = Ok x →
  interval d t l = Ok (x, x).
Proof. intros H1 H2. unfold interval. by rewrite H1, H2, Z.ltb_irrefl. Qed.




(** ** Rounding to two decimals *)

Section Rounding.

Local Open Scope Q_scope.

Lemma round_half_even_comp x y : x == y → round_half_even x = round_half_even y.
Proof.
  intros H. unfold round_half_even.
  rewrite (Qfloor_comp x y H).
  assert (Hc : (x - inject_Z (Qfloor y) ?= 1 # 2) = (y - inject_Z (Qfloor y) ?= 1 # 2))
    by (apply Qcompare_comp; [rewrite H|]; reflexivity).
  by rewrite Hc.
Qed.

Lemma round_half_even_inject k : round_half_even (inject_Z k) = k.
Proof.
  unfold round_half_even. rewrite Qfloor_Z.
  assert (Hc : (inject_Z k - inject_Z k ?= 1 # 2) = (0 ?= 1 # 2))
    by (apply Qcompare_comp; [ring|reflexivity]).
  by rewrite Hc.
Qed.

Lemma round2_comp x y : x == y → round2 x = round2 y.
Proof.
  intros H. unfold round2.
  rewrite (round_half_even_comp (x * 100) (y * 100)); [reflexivity|].
  by rewrite H.
Qed.

Lemma round2_hundredths x k : x == k # 100 → round2 x = Qred (k # 100).
Proof.
  intros H. unfold round2.
  rewrite (round_half_even_comp (x * 100) (inject_Z k)), round_half_even_inject;
    [reflexivity|].
  rewrite H. unfold Qeq, Qmult, inject_Z. simpl. lia.
Qed.

Lemma round2_centi x : centi (round2 x).
Proof. eexists. unfold round2. apply Qred_correct. Qed.

Lemma round2_id x : centi x → round2 x == x.
Proof.
  intros [k H]. rewrite (round2_hundredths x k H), Qred_correct. by symmetry.
Qed.

Lemma centi_plus x y : centi x → centi y → centi (x + y).
Proof.
  intros [k Hk] [j Hj]. exists (k + j)%Z. rewrite Hk, Hj.
  unfold Qeq, Qplus. simpl. lia.
Qed.

Lemma centi_zero : centi 0.
Proof. exists 0%Z. reflexivity. Qed.

Lemma centi_comp x y : x == y → centi x → centi y.
Proof. intros H [k Hk]. exists k. by rewrite <- H. Qed.

Lemma Qabs_diff_eq x y : x == y → Qabs (x - y) <= 1 # 100.
Proof.
  intros H. rewrite H.
  assert (H0 : y - y == 0) by ring. rewrite H0. discriminate.
Qed.

End Rounding.

(** ** Running totals *)

Lemma final_hours_cons ph r (df : list row) :
  final_hours ph (r :: df) = final_hours (Total_Hours_After_Flight r) df.
Proof. unfold final_hours. rewrite last_cons. by destruct (last df). Qed.

Lemma final_landings_cons pl r (df : list row) :
  final_landings pl (r :: df) = final_landings (Total_Landings_After_Flight r) df.
Proof. unfold final_landings. rewrite last_cons. by destruct (last df). Qed.

Lemma totals_chain_app ph pl (df1 df2 : list row) :
  totals_chain ph pl (df1 ++ df2)
  ↔ totals_chain ph pl df1
    ∧ totals_chain (final_hours ph df1) (final_landings pl df1) df2.
Proof.
  revert ph pl. induction df1 as [|r df1 IH]; intros ph pl.
  - simpl. unfold final_hours, final_landings. simpl. tauto.
  - rewrite final_hours_cons, final_landings_cons. simpl. rewrite IH. tauto.
Qed.

Lemma new_row_chain (df : list row) d tn t l n t1 t2 :
  totals_chain (final_hours 0 df) (final_landings 0 df) [new_row df d tn t l n t1 t2].
Proof. unfold final_hours, final_landings, new_row. simpl. by destruct (last df). Qed.

Lemma chain_landings pl (df : list row) ph :
  totals_chain ph pl df →
  final_landings pl df = pl + sum_Z (map Landings_This_Flight df).
Proof.
  revert ph pl. induction df as [|r df IH]; intros ph pl.
  - intros _. unfold final_landings, sum_Z. simpl. lia.
  - intros (_ & Hl & Hc). rewrite final_landings_cons, (IH _ _ Hc), Hl.
    unfold sum_Z. simpl. lia.
Qed.

Lemma chain_hours ph (df : list row) pl :
  totals_chain ph pl df → centi ph →
  Forall (λ r, centi (Flight_Duration r)) df →
  (final_hours ph df == ph + sum_Q (map Flight_Duration df))%Q.
Proof.
  revert ph pl. induction df as [|r df IH]; intros ph pl.
  - intros _ _ _. unfold final_hours, sum_Q. simpl. ring.
  - intros (Hh & _ & Hc) Hph Hall.
    apply Forall_cons in Hall as [Hr Hall].
    rewrite final_hours_cons, (IH _ _ Hc); [|rewrite Hh; apply round2_centi|exact Hall].
    rewrite Hh, (round2_id _ (centi_plus _ _ Hph Hr)).
    unfold sum_Q. simpl. ring.
Qed.

Lemma centi_sum (l : list Q) : Forall centi l → centi (sum_Q l).
Proof.
  induction 1 as [|x l Hx _ IH]; [apply centi_zero|].
  unfold sum_Q. simpl. by apply centi_plus.
Qed.

(** One call: the ledger of an entity grows by the new row when the
    call succeeds on that entity, and is unchanged otherwise. *)
Lemma record_call_load id c fs :
  load id (snd (record_call c fs))
  = load id fs ++
    (if succeeded (fst (record_call c fs))
        && bool_decide (Str.upper (Str.strip (c_entity c)) = Str.upper (Str.strip id))
     then match interval (c_date c) (c_takeoff c) (c_landing c) with
          | Ok (t1, t2) =>
              [new_row (load id fs) (c_date c) (Str.upper (Str.strip id))
                 (c_takeoff c) (c_landing c) (c_count c) t1 t2]
          | Raise _ => []
          end
     else []).
Proof.
  unfold record_call.
  destruct (record_never_raises (c_date c) (c_entity c) (c_takeoff c) (c_landing c)
              (c_count c) fs) as ([|] & m & Hout).
  - destruct (record_success_inv _ _ _ _ _ _ _ Hout) as (t1 & t2 & Hne & Hi & Hov).
    rewrite (record_accepted _ _ _ _ _ _ _ _ Hne Hi Hov). cbn [fst snd succeeded andb].
    case_bool_decide as Heq.
    + rewrite Hi, Heq, load_insert.
      by rewrite <- (load_normalised (c_entity c)), Heq, load_normalised.
    + by rewrite load_insert_ne, app_nil_r.
  - rewrite (record_rejected_unchanged _ _ _ _ _ _ _ Hout), Hout.
    simpl. by rewrite app_nil_r.
Qed.

Lemma calc_duration_hours_centi d t l x :
  calc_duration_hours d t l = Ok x → centi x.
Proof.
  rewrite calc_duration_hours_interval.
  destruct (interval d t l) as [[t1 t2]|]; [|discriminate].
  intros [= <-]. apply round2_centi.
Qed.

Lemma run_ledger id calls : ∀ fs,
  ∃ rows,
    load id (run calls fs) = load id fs ++ rows
    ∧ totals_chain (final_hours 0 (load id fs)) (final_landings 0 (load id fs)) rows
    ∧ Forall2 row_of_call rows (accepted id calls fs).
Proof.
  induction calls as [|c calls IH]; intros fs.
  - exists []. simpl. rewrite app_nil_r. repeat split. constructor.
  - destruct (IH (snd (record_call c fs))) as (rows & Hl & Hc & Hf).
    simpl run. simpl accepted. rewrite record_call_load in Hl, Hc.
    destruct (succeeded (fst (record_call c fs)) && bool_decide _) eqn:Hacc.
    + apply andb_true_iff in Hacc as [Hs _].
      assert (∃ m, fst (record_call c fs) = Ok (true, m)) as [m Hm].
      { destruct (fst (record_call c fs)) as [[[|] m]|]; try discriminate. by exists m. }
      destruct (record_success_inv _ _ _ _ _ _ _ Hm) as (t1 & t2 & _ & Hi & _).
      rewrite Hi in Hl, Hc.
      eexists (_ :: rows). rewrite <- app_assoc in Hl. split; [exact Hl|]. split.
      * apply (totals_chain_app _ _ [_]). split; [apply new_row_chain|].
        unfold final_hours, final_landings in Hc |- *.
        by rewrite last_snoc in Hc.
      * constructor; [|exact Hf]. split; [reflexivity|].
        by rewrite calc_duration_hours_interval, Hi.
    + rewrite app_nil_r in Hl, Hc. by exists rows.
Qed.

(** ** Sequences of calls on plain ledgers *)

Lemma is_empty_true s : is_empty s = true ↔ s = EmptyString.
Proof. destruct s; simpl; split; congruence. Qed.

Lemma run_stored_plain_aux (calls : list call) : ∀ fs,
  (∀ c, c ∈ calls →
     Str.upper (Str.strip (c_entity c)) ≠ EmptyString →
     plain_ledger (load (c_entity c) (run calls fs)) = true) →
  run_stored calls fs = Some (run calls fs).
Proof.
  induction calls as [|c calls IH]; intros fs Hall; [reflexivity|].
  cbn [run_stored run].
  assert (Hc : add_flight_record_stored (c_date c) (c_entity c) (c_takeoff c)
                 (c_landing c) (c_count c) fs
               = Some (record_call c fs)).
  { apply add_flight_record_stored_plain. intros Hs.
    destruct (succeeded_inv _ Hs) as [m Hm].
    destruct (record_success_inv _ _ _ _ _ _ _ Hm) as (t1 & t2 & Hne & _).
    pose proof (Hall c ltac:(left) Hne) as Hp. cbn [run] in Hp.
    destruct (run_ledger (c_entity c) calls (snd (record_call c fs)))
      as (rows & Hl & _).
    rewrite Hl, plain_ledger_app in Hp.
    by apply andb_true_iff in Hp as [Hp _]. }
  rewrite Hc. cbn. apply IH. intros c' Hin Hne.
  apply (Hall c'); [by right | exact Hne].
Qed.

Lemma plain_calls_elem (calls : list call) fs c :
  plain_calls calls fs = true → c ∈ calls →
  Str.upper (Str.strip (c_entity c)) ≠ EmptyString →
  plain_name (Str.upper (Str.strip (c_entity c))) = true
  ∧ plain_ledger (load (c_entity c) (run calls fs)) = true.
Proof.
  intros Hp Hin Hne. unfold plain_calls in Hp.
  rewrite forallb_forall in Hp. specialize (Hp c (proj1 (list_elem_of_In _ _) Hin)).
  cbv zeta in Hp. apply orb_true_iff in Hp as [He|Hp].
  - by apply is_empty_true in He.
  - apply andb_true_iff in Hp as [H1 H2]. by rewrite load_normalised in H2.
Qed.

(** On plain ledgers, the files hold after the calls what
    [add_flight_record] wrote. *)
Lemma run_stored_plain (calls : list call) fs :
  plain_calls calls fs = true → run_stored calls fs = Some (run calls fs).
Proof.
  intros Hp. apply run_stored_plain_aux. intros c Hin Hne.
  by apply (plain_calls_elem calls fs c).
Qed.




(** ** What the regular expression accepts *)

Section Regex.

Import Strptime.

Lemma append_assoc (a b c : string) : (a +:+ b) +:+ c = a +:+ (b +:+ c).
Proof.
  induction a as [|x a IH]; [reflexivity|].
  change (String x ((a +:+ b) +:+ c) = String x (a +:+ b +:+ c)). by rewrite IH.
Qed.

Lemma suffix_of_refl s : suffix_of s s.
Proof. by exists EmptyString. Qed.

Lemma suffix_of_cons c s : suffix_of s (String c s).
Proof. by exists (String c EmptyString). Qed.

Lemma suffix_of_trans a b c : suffix_of a b → suffix_of b c → suffix_of a c.
Proof.
  intros [p Hp] [q Hq]. exists (q +:+ p). subst b c. symmetry. apply append_assoc.
Qed.

Lemma digit_not_space c : 0 ≤ Str.code c - 48 ≤ 9 → Str.isspace c = false.
Proof.
  intros H. unfold Str.isspace. cbv zeta.
  apply orb_false_iff. split; apply andb_false_iff.
  - right. apply Z.leb_gt. lia.
  - right. apply Z.leb_gt. lia.
Qed.

Lemma elem_re_digit lo hi s v r :
  (v, r) ∈ re_digit lo hi s →
  ∃ c, s = String c r ∧ v = Str.code c - 48 ∧ 0 ≤ v ≤ 9 ∧ lo ≤ v ≤ hi.
Proof.
  destruct s as [|c s]; simpl; [by intros ?%elem_of_nil|].
  destruct (_ && _) eqn:E; [|by intros ?%elem_of_nil].
  intros [= -> ->]%list_elem_of_singleton.
  repeat (apply andb_true_iff in E as [E ?]).
  exists c. repeat split; lia.
Qed.

Lemma elem_re_char c s r : r ∈ re_char c s → s = String c r.
Proof.
  destruct s as [|c' s]; simpl; [by intros ?%elem_of_nil|].
  destruct (Ascii.eqb_spec c c') as [->|]; [|by intros ?%elem_of_nil].
  by intros ->%list_elem_of_singleton.
Qed.

Lemma elem_re_spaces s r : r ∈ re_spaces s → suffix_of r s.
Proof.
  induction s as [|c s IH]; simpl; [by intros ?%elem_of_nil|].
  destruct (Str.isspace c); [|by intros ?%elem_of_nil].
  intros [H| ->%list_elem_of_singleton]%elem_of_app.
  - eapply suffix_of_trans; [by apply IH | apply suffix_of_cons].
  - apply suffix_of_cons.
Qed.

Lemma consumes_suffix p lo hi s v r :
  consumes p lo hi → (v, r) ∈ p s → suffix_of r s.
Proof.
  intros Hp Hin. destruct (Hp s v r Hin) as (_ & c & _ & Hs).
  eapply suffix_of_trans; [apply suffix_of_cons | exact Hs].
Qed.

Lemma consumes_weaken p lo hi lo' hi' :
  consumes p lo hi → lo' ≤ lo → hi ≤ hi' → consumes p lo' hi'.
Proof.
  intros Hp ? ? s v r Hin. destruct (Hp s v r Hin) as [? ?]. split; [lia|done].
Qed.

Lemma consumes_alt p q lo hi :
  consumes p lo hi → consumes q lo hi → consumes (λ s, p s ++ q s) lo hi.
Proof.
  intros Hp Hq s v r [H|H]%elem_of_app; [by apply Hp | by apply Hq].
Qed.

Lemma consumes_digit lo hi : consumes (re_digit lo hi) lo hi.
Proof.
  intros s v r (c & -> & -> & Hd & Hr)%elem_re_digit. split; [exact Hr|].
  exists c. split; [by apply digit_not_space | apply suffix_of_refl].
Qed.

Lemma consumes_digit2 lo1 hi1 lo2 hi2 :
  consumes (re_digit2 lo1 hi1 lo2 hi2) (10 * lo1 + lo2) (10 * hi1 + hi2).
Proof.
  intros s v r Hin. unfold re_digit2 in Hin.
  apply list_elem_of_bind in Hin as ([a r1] & Hin & Ha).
  apply list_elem_of_bind in Hin as ([b r2] & Hin & Hb).
  apply list_elem_of_singleton in Hin. injection Hin as -> ->.
  apply elem_re_digit in Ha as (c1 & -> & _ & _ & Ha).
  destruct (consumes_digit _ _ _ _ _ Hb) as (Hb' & c2 & Hc2 & Hs).
  split; [lia|]. exists c2. split; [exact Hc2|].
  eapply suffix_of_trans; [exact Hs | apply suffix_of_cons].
Qed.

Lemma consumes_Y : consumes re_Y 0 9999.
Proof.
  intros s v r Hin. unfold re_Y in Hin.
  apply list_elem_of_bind in Hin as ([a r1] & Hin & Ha).
  apply list_elem_of_bind in Hin as ([b r2] & Hin & Hb).
  apply list_elem_of_bind in Hin as ([c r3] & Hin & Hc).
  apply list_elem_of_bind in Hin as ([d r4] & Hin & Hd).
  apply list_elem_of_singleton in Hin. injection Hin as -> ->.
  apply elem_re_digit in Ha as (c1 & -> & _ & _ & Ha).
  apply elem_re_digit in Hb as (c2 & -> & _ & _ & Hb).
  apply elem_re_digit in Hc as (c3 & -> & _ & _ & Hc).
  destruct (consumes_digit _ _ _ _ _ Hd) as (Hd' & c4 & Hc4 & Hs).
  split; [lia|]. exists c4. split; [exact Hc4|].
  eapply suffix_of_trans; [exact Hs|].
  eapply suffix_of_trans; [apply suffix_of_cons|].
  eapply suffix_of_trans; apply suffix_of_cons.
Qed.

Lemma consumes_m : consumes re_m 1 12.
Proof.
  unfold re_m. repeat apply consumes_alt.
  - eapply consumes_weaken; [apply consumes_digit2|lia..].
  - eapply consumes_weaken; [apply consumes_digit2|lia..].
  - eapply consumes_weaken; [apply consumes_digit|lia..].
Qed.

Lemma consumes_d : consumes re_d 1 31.
Proof.
  unfold re_d. repeat apply consumes_alt.
  - eapply consumes_weaken; [apply consumes_digit2|lia..].
  - eapply consumes_weaken; [apply consumes_digit2|lia..].
  - eapply consumes_weaken; [apply consumes_digit2|lia..].
  - eapply consumes_weaken; [apply consumes_digit|lia..].
  - intros s v r Hin.
    apply list_elem_of_bind in Hin as (r1 & Hin & ->%elem_re_char).
    destruct (consumes_digit _ _ _ _ _ Hin) as (Hv & c & Hc & Hs).
    split; [lia|]. exists c. split; [exact Hc|].
    eapply suffix_of_trans; [exact Hs | apply suffix_of_cons].
Qed.

Lemma consumes_H : consumes re_H 0 23.
Proof.
  unfold re_H. repeat apply consumes_alt.
  - eapply consumes_weaken; [apply consumes_digit2|lia..].
  - eapply consumes_weaken; [apply consumes_digit2|lia..].
  - eapply consumes_weaken; [apply consumes_digit|lia..].
Qed.

Lemma consumes_M : consumes re_M 0 59.
Proof.
  unfold re_M. repeat apply consumes_alt.
  - eapply consumes_weaken; [apply consumes_digit2|lia..].
  - eapply consumes_weaken; [apply consumes_digit|lia..].
Qed.

(** Every match of the whole expression has its fields in range and ends
    on a character that is not white space. *)
Lemma elem_format_regex s f rest :
  (f, rest) ∈ format_regex s →
  (0 ≤ f_year f ≤ 9999 ∧ 1 ≤ f_month f ≤ 12 ∧ 1 ≤ f_day f ≤ 31
   ∧ 0 ≤ f_hour f ≤ 23 ∧ 0 ≤ f_minute f ≤ 59)
  ∧ ∃ c, Str.isspace c = false ∧ suffix_of (String c rest) s.
Proof.
  intros Hin. unfold format_regex in Hin.
  apply list_elem_of_bind in Hin as ([Y s1] & Hin & HY).
  apply list_elem_of_bind in Hin as (s2 & Hin & H1).
  apply list_elem_of_bind in Hin as ([m s3] & Hin & Hm).
  apply list_elem_of_bind in Hin as (s4 & Hin & H2).
  apply list_elem_of_bind in Hin as ([d s5] & Hin & Hd).
  apply list_elem_of_bind in Hin as (s6 & Hin & H3).
  apply list_elem_of_bind in Hin as ([H s7] & Hin & HH).
  apply list_elem_of_bind in Hin as (s8 & Hin & H4).
  apply list_elem_of_bind in Hin as ([M s9] & Hin & HM).
  apply list_elem_of_singleton in Hin. injection Hin as -> ->.
  destruct (consumes_M _ _ _ HM) as (RM & c & Hc & Hs).
  simpl. split.
  - pose proof (proj1 (consumes_Y _ _ _ HY)). pose proof (proj1 (consumes_m _ _ _ Hm)).
    pose proof (proj1 (consumes_d _ _ _ Hd)). pose proof (proj1 (consumes_H _ _ _ HH)).
    lia.
  - exists c. split; [exact Hc|].
    apply elem_re_char in H1, H2, H4. apply elem_re_spaces in H3.
    eapply suffix_of_trans; [exact Hs|]. subst s7.
    eapply suffix_of_trans; [apply suffix_of_cons|].
    eapply suffix_of_trans; [exact (consumes_suffix _ _ _ _ _ _ consumes_H HH)|].
    eapply suffix_of_trans; [exact H3|].
    eapply suffix_of_trans; [exact (consumes_suffix _ _ _ _ _ _ consumes_d Hd)|].
    subst s3. eapply suffix_of_trans; [apply suffix_of_cons|].
    eapply suffix_of_trans; [exact (consumes_suffix _ _ _ _ _ _ consumes_m Hm)|].
    subst s1. eapply suffix_of_trans; [apply suffix_of_cons|].
    exact (consumes_suffix _ _ _ _ _ _ consumes_Y HY).
Qed.

End Regex.

(** ** What [strptime] returns *)

Section ParseResults.

Import Strptime.

Lemma strptime_ok data x :
  strptime data = Ok x →
  ∃ Y m d H M, valid_fields Y m d H M ∧ x = Cal.minutes Y m d H M.
Proof.
  unfold strptime.
  destruct (format_regex data) as [|[f rest] l] eqn:E; [discriminate|].
  destruct rest; [|discriminate].
  destruct (_ && _) eqn:C; [|discriminate]. intros [= <-].
  assert (Hin : (f, EmptyString) ∈ format_regex data) by (rewrite E; left).
  destruct (elem_format_regex _ _ _ Hin) as [R _].
  repeat (apply andb_true_iff in C as [C ?]).
  unfold Cal.MINYEAR, Cal.MAXYEAR in *.
  exists (f_year f), (f_month f), (f_day f), (f_hour f), (f_minute f).
  split; [|reflexivity]. unfold valid_fields. lia.
Qed.

Lemma parse_datetime_ok d t x :
  parse_datetime d t = Ok x →
  ∃ Y m dd H M, valid_fields Y m dd H M ∧ x = Cal.minutes Y m dd H M.
Proof. apply strptime_ok. Qed.

Lemma days_before_year_nonneg Y : 1 ≤ Y → 0 ≤ Cal.days_before_year Y.
Proof.
  intros H. unfold Cal.days_before_year. cbv zeta.
  pose proof (Z.div_le_mono (Y - 1) ((Y - 1) * 25) 100) as H1.
  replace ((Y - 1) * 25) with ((Y - 1) * 25 + 0) in H1 by lia.
  assert (H2 : (Y - 1) / 100 ≤ (Y - 1) / 4).
  { apply Z.div_le_lower_bound; [lia|].
    pose proof (Z.mul_div_le (Y - 1) 100). lia. }
  assert (0 ≤ (Y - 1) / 400) by (apply Z.div_pos; lia).
  lia.
Qed.

Lemma ymd2ord_pos Y m d :
  1 ≤ Y → 1 ≤ m ≤ 12 → 1 ≤ d → 1 ≤ Cal.ymd2ord Y m d.
Proof.
  intros HY Hm Hd. unfold Cal.ymd2ord, Cal.days_before_month.
  pose proof (days_before_year_nonneg Y HY).
  assert (0 ≤ Cal.DAYS_BEFORE_MONTH m).
  { assert (m = 1 ∨ m = 2 ∨ m = 3 ∨ m = 4 ∨ m = 5 ∨ m = 6 ∨ m = 7 ∨ m = 8
            ∨ m = 9 ∨ m = 10 ∨ m = 11 ∨ m = 12) as Hc by lia.
    repeat (destruct Hc as [->|Hc]; [simpl; lia|]). subst; simpl; lia. }
  destruct (_ && _); lia.
Qed.

(** The instant of valid fields is not before 0001-01-01 00:00, and its
    date is the date of the fields. *)
Lemma minutes_ordinal Y m d H M :
  valid_fields Y m d H M →
  0 ≤ Cal.minutes Y m d H M
  ∧ Cal.toordinal (Cal.minutes Y m d H M) = Cal.ymd2ord Y m d.
Proof.
  intros (HY & Hm & Hd & HH & HM).
  pose proof (ymd2ord_pos Y m d (proj1 HY) Hm (proj1 Hd)) as Ho.
  unfold Cal.minutes, Cal.toordinal. split; [lia|].
  replace (1440 * (Cal.ymd2ord Y m d - 1) + 60 * H + M)
    with ((60 * H + M) + (Cal.ymd2ord Y m d - 1) * 1440) by lia.
  rewrite Z.div_add by lia. rewrite Z.div_small by lia. lia.
Qed.

Lemma parse_datetime_nonneg d t x : parse_datetime d t = Ok x → 0 ≤ x.
Proof.
  intros (Y & m & dd & H & M & Hv & ->)%parse_datetime_ok.
  by apply minutes_ordinal.
Qed.

Lemma ends_blank_app pre r :
  r ≠ EmptyString → ends_blank (pre +:+ r) → ends_blank r.
Proof.
  intros Hr. induction pre as [|c pre IH]; [done|].
  change (String c pre +:+ r) with (String c (pre +:+ r)).
  destruct (pre +:+ r) as [|a s] eqn:E.
  - destruct pre; [|discriminate]. change (r = EmptyString) in E. congruence.
  - intros Hb. apply IH. exact Hb.
Qed.

Lemma ends_blank_snoc s : ends_blank (s +:+ " ").
Proof.
  induction s as [|c s IH]; [reflexivity|].
  change (String c s +:+ " ") with (String c (s +:+ " ")).
  destruct (s +:+ " ") eqn:E; [|exact IH].
  destruct s; discriminate.
Qed.

(** Text that ends with white space is not a date and time: either the
    expression does not match, or text is left over. *)
Lemma strptime_ends_blank data : ends_blank data → ∃ e, strptime data = Raise e.
Proof.
  intros Hb. unfold strptime.
  destruct (format_regex data) as [|[f rest] l] eqn:E; [by eexists|].
  destruct rest; [|by eexists]. exfalso.
  assert (Hin : (f, EmptyString) ∈ format_regex data) by (rewrite E; left).
  destruct (elem_format_regex _ _ _ Hin) as (_ & c & Hc & pre & ->).
  apply ends_blank_app in Hb; [|discriminate]. simpl in Hb. congruence.
Qed.

Lemma parse_datetime_empty_time d t :
  Str.strip t = EmptyString → ∃ e, parse_datetime d t = Raise e.
Proof.
  intros E. unfold parse_datetime. rewrite E.
  apply strptime_ends_blank.
  change (" " +:+ EmptyString) with " ". apply ends_blank_snoc.
Qed.

Lemma parse_datetime_empty_date d t :
  Str.strip d = EmptyString → ∃ e, parse_datetime d t = Raise e.
Proof.
  intros E. unfold parse_datetime. rewrite E. by eexists.
Qed.

End ParseResults.

(** ** The rollover past midnight *)

Lemma add_days_one t :
  0 ≤ t →
  Cal.add_days t 1
  = if Cal.toordinal t <? Cal.MAXORDINAL then Ok (t + 1440) else Raise OverflowError.
Proof.
  intros Ht. unfold Cal.add_days. cbv zeta.
  assert (Ho : Cal.toordinal (t + 1440 * 1) = Cal.toordinal t + 1).
  { unfold Cal.toordinal. replace (t + 1440 * 1) with (t + 1 * 1440) by lia.
    rewrite Z.div_add by lia. lia. }
  assert (0 ≤ t / 1440) by (apply Z.div_pos; lia).
  rewrite Ho. replace (t + 1440 * 1) with (t + 1440) by lia.
  unfold Cal.toordinal in *.
  destruct (Z.ltb_spec (t / 1440 + 1) Cal.MAXORDINAL);
    destruct (Z.leb_spec 1 (t / 1440 + 1 + 1));
    destruct (Z.leb_spec (t / 1440 + 1 + 1) Cal.MAXORDINAL); simpl; try reflexivity; lia.
Qed.

(** C2. With the takeoff parsed to [start] and the landing to [e0] on
    the given date: if [e0] is strictly earlier than [start] the interval
    ends at [e0] plus 24 hours (unless that would pass 9999-12-31, where
    the addition overflows and there is no interval), otherwise it ends at
    [e0]; the end of an interval is never moved by more than these 24
    hours.  For 2024-01-01, 23:30 to 00:15, the duration is 0.75 hours
    and the interval ends on 2024-01-02, at 00:15. *)
Theorem rollover_once (date takeoff landing : string) (start e0 : Z) :
  parse_datetime date takeoff = Ok start →
  parse_datetime date landing = Ok e0 →
  (e0 < start → Cal.toordinal e0 < Cal.MAXORDINAL →
   interval date takeoff landing = Ok (start, e0 + 1440))
  ∧ (e0 < start → Cal.toordinal e0 = Cal.MAXORDINAL →
     interval date takeoff landing = Raise OverflowError)
  ∧ (start ≤ e0 → interval date takeoff landing = Ok (start, e0))
  ∧ (∀ s e, interval date takeoff landing = Ok (s, e) →
       s = start
       ∧ e = (if e0 <? start then e0 + 1440 else e0)
       ∧ (e = e0 ∨ e = e0 + 1440))
  ∧ (∀ h, calc_duration_hours date takeoff landing = Ok h →
       ∃ e, interval date takeoff landing = Ok (start, e)
            ∧ h = round2 (inject_Z (60 * (e - start)) / 3600))
  ∧ (∃ h, calc_duration_hours "2024-01-01" "23:30" "00:15" = Ok h ∧ (h == 0.75)%Q)
  ∧ interval "2024-01-01" "23:30" "00:15"
    = Ok (Cal.minutes 2024 1 1 23 30, Cal.minutes 2024 1 2 0 15)
  ∧ Cal.toordinal (Cal.minutes 2024 1 2 0 15) = Cal.ymd2ord 2024 1 2
  ∧ parse_datetime "2024-01-02" "00:15" = Ok (Cal.minutes 2024 1 2 0 15).
Proof.
  intros Hs He.
  pose proof (parse_datetime_nonneg _ _ _ He) as Hnn.
  assert (Hi : interval date takeoff landing
               = if e0 <? start
                 then (if Cal.toordinal e0 <? Cal.MAXORDINAL
                       then Ok (start, e0 + 1440) else Raise OverflowError)
                 else Ok (start, e0)).
  { unfold interval. rewrite Hs, He.
    destruct (e0 <? start); [|reflexivity].
    rewrite (add_days_one _ Hnn). by destruct (_ <? _). }
  split; [|split; [|split; [|split; [|split]]]].
  - intros H1 H2. rewrite Hi.
    destruct (Z.ltb_spec e0 start); [|lia].
    by destruct (Z.ltb_spec (Cal.toordinal e0) Cal.MAXORDINAL); [|lia].
  - intros H1 H2. rewrite Hi.
    destruct (Z.ltb_spec e0 start); [|lia].
    by destruct (Z.ltb_spec (Cal.toordinal e0) Cal.MAXORDINAL); [lia|].
  - intros H1. rewrite Hi. by destruct (Z.ltb_spec e0 start); [lia|].
  - intros s e H. rewrite Hi in H.
    destruct (e0 <? start).
    + destruct (_ <? _); [|discriminate H].
      injection H as <- <-. split; [reflexivity|]. split; [reflexivity|by right].
    + injection H as <- <-. split; [reflexivity|]. split; [reflexivity|by left].
  - intros h Hh. rewrite calc_duration_hours_interval in Hh.
    destruct (interval date takeoff landing) as [[s e]|] eqn:E; [|discriminate].
    injection Hh as <-. exists e.
    assert (s = start) as ->; [|by split].
    destruct (e0 <? start); [destruct (_ <? _)|]; congruence.
  - split; [|split; [|split]].
    + exists (3 # 4)%Q. split; vm_compute; reflexivity.
    + vm_compute; reflexivity.
    + vm_compute; reflexivity.
    + vm_compute; reflexivity.
Qed.

Lemma rollover_once_witness :
  parse_datetime "2024-01-01" "23:30" = Ok (Cal.minutes 2024 1 1 23 30)
  ∧ parse_datetime "2024-01-01" "00:15" = Ok (Cal.minutes 2024 1 1 0 15)
  ∧ interval "2024-01-01" "23:30" "00:15"
    = Ok (Cal.minutes 2024 1 1 23 30, Cal.minutes 2024 1 1 0 15 + 1440).
Proof.
  assert (Hs : parse_datetime "2024-01-01" "23:30" = Ok (Cal.minutes 2024 1 1 23 30))
    by (vm_compute; reflexivity).
  assert (He : parse_datetime "2024-01-01" "00:15" = Ok (Cal.minutes 2024 1 1 0 15))
    by (vm_compute; reflexivity).
  split; [exact Hs|]. split; [exact He|].
  destruct (rollover_once _ _ _ _ _ Hs He) as (H & _).
  apply H; vm_compute; reflexivity.
Defined.

(** ** Dates and times in the fixed format parse *)

Section FixedFormat.

Import Strptime.

Lemma code_digit_char v : 0 ≤ v ≤ 9 → Str.code (digit_char v) = 48 + v.
Proof.
  intros H.
  assert (v = 0 ∨ v = 1 ∨ v = 2 ∨ v = 3 ∨ v = 4 ∨ v = 5 ∨ v = 6 ∨ v = 7
          ∨ v = 8 ∨ v = 9) as Hc by lia.
  repeat (destruct Hc as [->|Hc]; [reflexivity|]). by subst.
Qed.

Lemma isspace_digit_char v : 0 ≤ v ≤ 9 → Str.isspace (digit_char v) = false.
Proof. intros H. apply digit_not_space. rewrite code_digit_char; lia. Qed.

Lemma re_digit_char lo hi v r :
  0 ≤ v ≤ 9 → lo ≤ v ≤ hi → re_digit lo hi (String (digit_char v) r) = [(v, r)].
Proof.
  intros H1 H2. unfold re_digit. rewrite code_digit_char by exact H1.
  replace (48 + v - 48) with v by lia.
  destruct (Z.leb_spec 0 v); [|lia]. destruct (Z.leb_spec v 9); [|lia].
  destruct (Z.leb_spec lo v); [|lia]. by destruct (Z.leb_spec v hi); [|lia].
Qed.

Lemma lstrip_no_space s : no_space s → Str.lstrip s = s.
Proof. destruct s as [|c r]; [done|]. simpl. by intros [-> _]. Qed.

Lemma rstrip_no_space s : no_space s → Str.rstrip s = s.
Proof.
  induction s as [|c r IH]; [done|]. simpl. intros [Hc Hr].
  rewrite (IH Hr), Hc. by destruct r.
Qed.

Lemma strip_no_space s : no_space s → Str.strip s = s.
Proof.
  intros H. unfold Str.strip. rewrite (lstrip_no_space s H). by apply rstrip_no_space.
Qed.

Lemma no_space_two_digits n : 0 ≤ n ≤ 99 → no_space (two_digits n).
Proof.
  intros H. simpl.
  assert (0 ≤ n / 10) by (apply Z.div_pos; lia).
  assert (n / 10 < 10) by (apply Z.div_lt_upper_bound; lia).
  pose proof (Z.mod_pos_bound n 10 ltac:(lia)).
  split; [apply isspace_digit_char; lia|].
  split; [apply isspace_digit_char; lia|exact I].
Qed.

Lemma no_space_app a b : no_space a → no_space b → no_space (a +:+ b).
Proof.
  intros Ha Hb. induction a as [|c a IH]; [exact Hb|].
  destruct Ha as [Hc Ha]. change (String c a +:+ b) with (String c (a +:+ b)).
  split; [exact Hc | by apply IH].
Qed.

Lemma no_space_four_digits n : 0 ≤ n ≤ 9999 → no_space (four_digits n).
Proof.
  intros H. unfold four_digits.
  assert (0 ≤ n / 1000) by (apply Z.div_pos; lia).
  assert (n / 1000 < 10) by (apply Z.div_lt_upper_bound; lia).
  pose proof (Z.mod_pos_bound (n / 100) 10 ltac:(lia)).
  pose proof (Z.mod_pos_bound n 100 ltac:(lia)).
  split; [apply isspace_digit_char; lia|].
  split; [apply isspace_digit_char; lia|].
  apply no_space_two_digits. lia.
Qed.

Lemma no_space_iso_date Y m d :
  0 ≤ Y ≤ 9999 → 0 ≤ m ≤ 99 → 0 ≤ d ≤ 99 → no_space (iso_date Y m d).
Proof.
  intros HY Hm Hd. unfold iso_date.
  repeat apply no_space_app;
    auto using no_space_four_digits, no_space_two_digits; by split.
Qed.

Lemma no_space_hhmm H M : 0 ≤ H ≤ 99 → 0 ≤ M ≤ 99 → no_space (hhmm H M).
Proof.
  intros HH HM. unfold hhmm.
  repeat apply no_space_app; auto using no_space_two_digits; by split.
Qed.

End FixedFormat.

Section FixedFormatParses.

Import Strptime.

Lemma Z_range_Forall (P : Z → Prop) (lo n : Z) :
  Forall P (seqZ lo n) → ∀ v, lo ≤ v < lo + n → P v.
Proof.
  intros HF v Hv. eapply Forall_forall; [exact HF|]. by apply elem_of_seqZ.
Qed.

Ltac by_cases_in lo n :=
  let l := eval vm_compute in (seqZ lo n) in
  let v := fresh "v" in
  let Hv := fresh "Hv" in
  intros v Hv; pattern v;
  apply (Z_range_Forall _ lo n); [change (seqZ lo n) with l | lia];
  repeat (constructor; [eexists; reflexivity|]); constructor.

Lemma re_Y_four_digits Y r :
  0 ≤ Y ≤ 9999 → re_Y (four_digits Y +:+ r) = [(Y, r)].
Proof.
  intros H. unfold four_digits, two_digits, re_Y.
  assert (0 ≤ Y / 1000) by (apply Z.div_pos; lia).
  assert (Y / 1000 < 10) by (apply Z.div_lt_upper_bound; lia).
  pose proof (Z.mod_pos_bound (Y / 100) 10 ltac:(lia)).
  pose proof (Z.mod_pos_bound Y 100 ltac:(lia)).
  assert (0 ≤ Y mod 100 / 10) by (apply Z.div_pos; lia).
  assert (Y mod 100 / 10 < 10) by (apply Z.div_lt_upper_bound; lia).
  pose proof (Z.mod_pos_bound (Y mod 100) 10 ltac:(lia)).
  change ((String ?a (String ?b (String ?c (String ?d EmptyString)))) +:+ r)
    with (String a (String b (String c (String d r)))).
  rewrite re_digit_char by lia. rewrite bind_singleton.
  rewrite re_digit_char by lia. rewrite bind_singleton.
  rewrite re_digit_char by lia. rewrite bind_singleton.
  rewrite re_digit_char by lia. rewrite bind_singleton.
  do 2 f_equal.
  pose proof (Z.div_mod Y 100 ltac:(lia)).
  pose proof (Z.div_mod (Y / 100) 10 ltac:(lia)).
  pose proof (Z.div_mod (Y mod 100) 10 ltac:(lia)).
  assert (Y / 100 / 10 = Y / 1000) by (rewrite Z.div_div by lia; reflexivity).
  lia.
Qed.

Lemma re_m_two_digits r : ∀ m,
  1 ≤ m ≤ 12 → ∃ l, re_m (two_digits m +:+ r) = (m, r) :: l.
Proof. by_cases_in 1 12. Qed.

Lemma re_d_two_digits r : ∀ d,
  1 ≤ d ≤ 31 → ∃ l, re_d (two_digits d +:+ r) = (d, r) :: l.
Proof. by_cases_in 1 31. Qed.

Lemma re_H_two_digits r : ∀ H,
  0 ≤ H ≤ 23 → ∃ l, re_H (two_digits H +:+ r) = (H, r) :: l.
Proof. by_cases_in 0 24. Qed.

Lemma re_M_two_digits r : ∀ M,
  0 ≤ M ≤ 59 → ∃ l, re_M (two_digits M +:+ r) = (M, r) :: l.
Proof. by_cases_in 0 60. Qed.

End FixedFormatParses.

Section FixedFormatWhole.

Import Strptime.

Lemma re_char_same c r : re_char c (String c r) = [r].
Proof. simpl. by rewrite Ascii.eqb_refl. Qed.

Lemma re_spaces_one c r :
  Str.isspace c = false → re_spaces (String " " (String c r)) = [String c r].
Proof. intros Hc. simpl. by rewrite Hc. Qed.

Lemma cons_app_ex {A} (x : A) (l1 l2 : list A) :
  (∃ l, l1 = x :: l) → ∃ l, l1 ++ l2 = x :: l.
Proof. intros [l ->]. by eexists. Qed.

Lemma format_regex_fixed Y m d H M :
  0 ≤ Y ≤ 9999 → 1 ≤ m ≤ 12 → 1 ≤ d ≤ 31 → 0 ≤ H ≤ 23 → 0 ≤ M ≤ 59 →
  ∃ l, format_regex
         (four_digits Y +:+ String "-" (two_digits m +:+ String "-"
            (two_digits d +:+ String " " (two_digits H +:+ String ":"
               (two_digits M +:+ EmptyString)))))
       = (Fields Y m d H M, EmptyString) :: l.
Proof.
  intros HY Hm Hd HH HM. unfold format_regex.
  rewrite (re_Y_four_digits Y _ HY), bind_singleton. cbv beta iota.
  rewrite re_char_same, bind_singleton.
  match goal with |- context [re_m (two_digits m +:+ ?r)] =>
    destruct (re_m_two_digits r m Hm) as [lm ->] end.
  rewrite bind_cons. apply cons_app_ex. cbv beta iota.
  rewrite re_char_same, bind_singleton.
  match goal with |- context [re_d (two_digits d +:+ ?r)] =>
    destruct (re_d_two_digits r d Hd) as [ld ->] end.
  rewrite bind_cons. apply cons_app_ex. cbv beta iota.
  assert (HH' : 0 ≤ H / 10 ≤ 9).
  { split; [apply Z.div_pos; lia|].
    assert (H / 10 < 10) by (apply Z.div_lt_upper_bound; lia). lia. }
  change (two_digits H +:+ ?r)
    with (String (digit_char (H / 10)) (String (digit_char (H mod 10)) r)).
  rewrite (re_spaces_one _ _ (isspace_digit_char _ HH')), bind_singleton.
  change (String (digit_char (H / 10)) (String (digit_char (H mod 10)) ?r))
    with (two_digits H +:+ r).
  match goal with |- context [re_H (two_digits H +:+ ?r)] =>
    destruct (re_H_two_digits r H HH) as [lH ->] end.
  rewrite bind_cons. apply cons_app_ex. cbv beta iota.
  rewrite re_char_same, bind_singleton.
  destruct (re_M_two_digits EmptyString M HM) as [lM ->].
  rewrite bind_cons. apply cons_app_ex. cbv beta iota.
  by eexists.
Qed.

Lemma fixed_format_join Y m d H M :
  iso_date Y m d +:+ " " +:+ hhmm H M
  = four_digits Y +:+ String "-" (two_digits m +:+ String "-"
      (two_digits d +:+ String " " (two_digits H +:+ String ":"
         (two_digits M +:+ EmptyString)))).
Proof. reflexivity. Qed.

(** A date and a time written in the fixed format, with fields that make
    a date and a time of day, parse to the instant of these fields. *)
Lemma parse_datetime_fixed_format Y m d H M :
  valid_fields Y m d H M →
  parse_datetime (iso_date Y m d) (hhmm H M) = Ok (Cal.minutes Y m d H M).
Proof.
  intros (HY & Hm & Hd & HH & HM).
  assert (Hdim : Cal.days_in_month Y m ≤ 31).
  { unfold Cal.days_in_month. destruct (_ && _); [lia|].
    assert (m = 1 ∨ m = 2 ∨ m = 3 ∨ m = 4 ∨ m = 5 ∨ m = 6 ∨ m = 7 ∨ m = 8
            ∨ m = 9 ∨ m = 10 ∨ m = 11 ∨ m = 12) as Hc by lia.
    repeat (destruct Hc as [->|Hc]; [simpl; lia|]). subst; simpl; lia. }
  unfold parse_datetime.
  rewrite (strip_no_space (iso_date Y m d)) by (apply no_space_iso_date; lia).
  rewrite (strip_no_space (hhmm H M)) by (apply no_space_hhmm; lia).
  rewrite fixed_format_join. unfold strptime.
  destruct (format_regex_fixed Y m d H M) as [l ->]; [lia..|].
  cbn [f_year f_month f_day f_hour f_minute].
  unfold Cal.MINYEAR, Cal.MAXYEAR.
  destruct (Z.leb_spec 1 Y); [|lia]. destruct (Z.leb_spec Y 9999); [|lia].
  destruct (Z.leb_spec 1 d); [|lia].
  by destruct (Z.leb_spec d (Cal.days_in_month Y m)); [|lia].
Qed.

End FixedFormatWhole.

(** ** Dates and times in the fixed shape with any digits *)

Section FixedShape.

Import Strptime.

Ltac each_in lo n tac :=
  let l := eval vm_compute in (seqZ lo n) in
  let v := fresh "v" in
  let Hv := fresh "Hv" in
  cbv beta; intros v Hv; pattern v;
  apply (Z_range_Forall _ lo n); [change (seqZ lo n) with l | lia];
  repeat (constructor; [tac|]); constructor.

Lemma bind_bind {A B C} (l : list A) (f : A → list B) (g : B → list C) :
  (l ≫= f) ≫= g = l ≫= (λ x, f x ≫= g).
Proof.
  induction l as [|x l IH]; [reflexivity|].
  rewrite !bind_cons, bind_app. by rewrite IH.
Qed.

Lemma chain_char {A} (L : list (Z * string)) c (K : Z → string → list A) :
  ('(v, s) ← L; s' ← re_char c s; K v s')
  = ('(v, s') ← ('(v, s) ← L; s' ← re_char c s; [(v, s')]); K v s').
Proof.
  rewrite bind_bind. apply list_bind_ext; [|reflexivity]. intros [v s].
  rewrite bind_bind. apply list_bind_ext; [|reflexivity]. intros s'.
  by rewrite bind_singleton.
Qed.

Lemma chain_spaces {A} (L : list (Z * string)) (K : Z → string → list A) :
  ('(v, s) ← L; s' ← re_spaces s; K v s')
  = ('(v, s') ← ('(v, s) ← L; s' ← re_spaces s; [(v, s')]); K v s').
Proof.
  rewrite bind_bind. apply list_bind_ext; [|reflexivity]. intros [v s].
  rewrite bind_bind. apply list_bind_ext; [|reflexivity]. intros s'.
  by rewrite bind_singleton.
Qed.

Lemma month_matches r : ∀ m,
  0 ≤ m ≤ 99 →
  ('(v, s3) ← re_m (two_digits m +:+ String "-" r); s4 ← re_char "-" s3; [(v, s4)])
  = if (1 <=? m) && (m <=? 12) then [(m, r)] else [].
Proof. each_in 0 100 ltac:(vm_compute; reflexivity). Qed.

Lemma hour_matches r : ∀ H,
  0 ≤ H ≤ 99 →
  ('(v, s7) ← re_H (two_digits H +:+ String ":" r); s8 ← re_char ":" s7; [(v, s8)])
  = if H <=? 23 then [(H, r)] else [].
Proof. each_in 0 100 ltac:(vm_compute; reflexivity). Qed.

Lemma day_matches r : ∀ a,
  0 ≤ a ≤ 9 → ∀ d, 0 ≤ d ≤ 99 →
  ('(v, s5) ← re_d (two_digits d +:+ String " " (String (digit_char a) r));
   s6 ← re_spaces s5; [(v, s6)])
  = if (1 <=? d) && (d <=? 31) then [(d, String (digit_char a) r)] else [].
Proof.
  each_in 0 10 ltac:(idtac; each_in 0 100 ltac:(vm_compute; reflexivity)).
Qed.

Lemma minute_matches : ∀ M,
  0 ≤ M ≤ 99 →
  ∃ l, re_M (two_digits M +:+ EmptyString)
       = (if M <=? 59 then (M, EmptyString)
          else (M / 10, String (digit_char (M mod 10)) EmptyString)) :: l.
Proof. each_in 0 100 ltac:(eexists; vm_compute; reflexivity). Qed.

Lemma format_regex_fixed_shape Y m d H M :
  0 ≤ Y ≤ 9999 → 0 ≤ m ≤ 99 → 0 ≤ d ≤ 99 → 0 ≤ H ≤ 99 → 0 ≤ M ≤ 99 →
  ∃ l, format_regex
         (four_digits Y +:+ String "-" (two_digits m +:+ String "-"
            (two_digits d +:+ String " " (two_digits H +:+ String ":"
               (two_digits M +:+ EmptyString)))))
       = if (1 <=? m) && (m <=? 12) && ((1 <=? d) && (d <=? 31)) && (H <=? 23)
         then (if M <=? 59 then (Fields Y m d H M, EmptyString)
               else (Fields Y m d H (M / 10),
                     String (digit_char (M mod 10)) EmptyString)) :: l
         else [].
Proof.
  intros HY Hm Hd HH HM. unfold format_regex.
  rewrite (re_Y_four_digits Y _ HY), bind_singleton. cbv beta iota.
  rewrite re_char_same, bind_singleton.
  rewrite chain_char, (month_matches _ m Hm).
  destruct ((1 <=? m) && (m <=? 12)); [|by exists []].
  rewrite bind_singleton. cbv beta iota.
  assert (HH' : 0 ≤ H / 10 ≤ 9).
  { split; [apply Z.div_pos; lia|].
    assert (H / 10 < 10) by (apply Z.div_lt_upper_bound; lia). lia. }
  change (two_digits H +:+ ?r)
    with (String (digit_char (H / 10)) (String (digit_char (H mod 10)) r)).
  rewrite chain_spaces, (day_matches _ _ HH' d Hd).
  destruct ((1 <=? d) && (d <=? 31)); [|by exists []].
  rewrite bind_singleton. cbv beta iota.
  change (String (digit_char (H / 10)) (String (digit_char (H mod 10)) ?r))
    with (two_digits H +:+ r).
  rewrite chain_char, (hour_matches _ H HH).
  destruct (H <=? 23); [|by exists []].
  rewrite bind_singleton. cbv beta iota.
  destruct (minute_matches M HM) as [l ->].
  rewrite bind_cons. simpl andb. cbv iota.
  destruct (M <=? 59); by eexists.
Qed.

(** What [parse_datetime] makes of a date and a time in the fixed shape,
    whatever their digits are. *)
Lemma parse_datetime_fixed_shape Y m d H M :
  0 ≤ Y ≤ 9999 → 0 ≤ m ≤ 99 → 0 ≤ d ≤ 99 → 0 ≤ H ≤ 99 → 0 ≤ M ≤ 99 →
  parse_datetime (iso_date Y m d) (hhmm H M)
  = if (1 <=? m) && (m <=? 12) && ((1 <=? d) && (d <=? 31)) && (H <=? 23)
    then
      if M <=? 59
      then
        if (1 <=? Y) && (d <=? Cal.days_in_month Y m)
        then Ok (Cal.minutes Y m d H M)
        else Raise ValueError_out_of_range
      else Raise (ValueError_unconverted (String (digit_char (M mod 10)) EmptyString))
    else Raise (ValueError_no_match (iso_date Y m d +:+ " " +:+ hhmm H M)).
Proof.
  intros HY Hm Hd HH HM. unfold parse_datetime.
  rewrite (strip_no_space (iso_date Y m d)) by (apply no_space_iso_date; lia).
  rewrite (strip_no_space (hhmm H M)) by (apply no_space_hhmm; lia).
  unfold strptime. rewrite fixed_format_join.
  destruct (format_regex_fixed_shape Y m d H M HY Hm Hd HH HM) as [l ->].
  destruct ((1 <=? m) && (m <=? 12) && ((1 <=? d) && (d <=? 31)) && (H <=? 23)) eqn:E;
    [|reflexivity].
  destruct (M <=? 59); [|reflexivity].
  cbn [f_year f_month f_day f_hour f_minute]. unfold Cal.MINYEAR, Cal.MAXYEAR.
  repeat (apply andb_true_iff in E as [E ?]).
  destruct (Z.leb_spec 1 Y); destruct (Z.leb_spec Y 9999); try lia;
    destruct (Z.leb_spec 1 d); try lia; simpl; try reflexivity.
Qed.

Lemma fixed_shape_invalid_fails Y m d H M :
  0 ≤ Y ≤ 9999 → 0 ≤ m ≤ 99 → 0 ≤ d ≤ 99 → 0 ≤ H ≤ 99 → 0 ≤ M ≤ 99 →
  ¬ valid_fields Y m d H M →
  ∃ e, parse_datetime (iso_date Y m d) (hhmm H M) = Raise e.
Proof.
  intros HY Hm Hd HH HM Hinv.
  rewrite parse_datetime_fixed_shape by assumption.
  destruct ((1 <=? m) && (m <=? 12) && ((1 <=? d) && (d <=? 31)) && (H <=? 23)) eqn:E;
    [|by eexists].
  destruct (Z.leb_spec M 59); [|by eexists].
  destruct ((1 <=? Y) && (d <=? Cal.days_in_month Y m)) eqn:E2; [|by eexists].
  exfalso. apply Hinv.
  repeat (apply andb_true_iff in E as [E ?]).
  apply andb_true_iff in E2 as [? ?].
  unfold valid_fields. lia.
Qed.

Lemma classic_valid Y m d H M : valid_fields Y m d H M ∨ ¬ valid_fields Y m d H M.
Proof.
  unfold valid_fields.
  destruct (Z_le_dec 1 Y), (Z_le_dec Y 9999), (Z_le_dec 1 m), (Z_le_dec m 12),
    (Z_le_dec 1 d), (Z_le_dec d (Cal.days_in_month Y m)), (Z_le_dec 0 H),
    (Z_le_dec H 23), (Z_le_dec 0 M), (Z_le_dec M 59); try (right; lia).
  left. lia.
Qed.

End FixedShape.

(** ** Parse errors and missing fields *)

Lemma interval_raises d t l e :
  parse_datetime d t = Raise e
  ∨ (is_ok (parse_datetime d t) = true ∧ parse_datetime d l = Raise e) →
  interval d t l = Raise e.
Proof.
  unfold interval. intros [->|[H ->]]; [reflexivity|].
  by destruct (parse_datetime d t).
Qed.

Lemma record_parse_error date tail takeoff landing n fs e :
  Str.upper (Str.strip tail) ≠ EmptyString →
  interval date takeoff landing = Raise e →
  record date tail takeoff landing n fs = (Ok (false, Date_time_parse_error e), fs).
Proof.
  intros Hne Hi. unfold record. rewrite add_flight_record_steps. cbv zeta.
  rewrite Hi. by destruct (Str.upper (Str.strip tail)).
Qed.

(** C6 (as the code has it). A date written with a 4-digit year and
    2-digit month and day, with a time written HH:MM, parses exactly when
    the digits name a day of the calendar (years 0001 to 9999) and a time
    of day, and then to the instant they name.  Otherwise it fails: a
    month, day or hour out of range (month 13, day 32, hour 24) does not
    match the format and the error carries the whole text; a minute past
    59 leaves its last digit unconverted; a year 0000 or a day past the
    end of the month (30 February) is out of range.  Every input that
    parses, in whatever shape, gives the instant of a valid date and
    time.  When the date with the takeoff time, or then with the landing
    time, fails to parse, [record] returns [false] with the message
    "Date/time parse error: " followed by the detail of that error, and
    leaves the store as it was.  White space around the date and around
    the time is ignored, and input in other shapes can parse as well:
    2024-1-5 with 9:5 parses to the same instant as 2024-01-05 with
    09:05. *)
Theorem fixed_format_parses_and_errors_reject :
  (∀ Y m d H M,
     valid_fields Y m d H M →
     parse_datetime (iso_date Y m d) (hhmm H M) = Ok (Cal.minutes Y m d H M))
  ∧ (∀ Y m d H M,
       0 ≤ Y ≤ 9999 → 0 ≤ m ≤ 99 → 0 ≤ d ≤ 99 → 0 ≤ H ≤ 99 → 0 ≤ M ≤ 99 →
       (is_ok (parse_datetime (iso_date Y m d) (hhmm H M)) = true
        ↔ valid_fields Y m d H M)
       ∧ (¬ valid_fields Y m d H M →
          parse_datetime (iso_date Y m d) (hhmm H M)
          = Raise
              (if (1 <=? m) && (m <=? 12) && ((1 <=? d) && (d <=? 31)) && (H <=? 23)
               then
                 if M <=? 59 then ValueError_out_of_range
                 else ValueError_unconverted (String (digit_char (M mod 10)) EmptyString)
               else ValueError_no_match (iso_date Y m d +:+ " " +:+ hhmm H M))))
  ∧ (∀ date time x,
       parse_datetime date time = Ok x →
       ∃ Y m d H M, valid_fields Y m d H M ∧ x = Cal.minutes Y m d H M)
  ∧ (∀ date tail takeoff landing n fs e,
       Str.upper (Str.strip tail) ≠ EmptyString →
       parse_datetime date takeoff = Raise e
       ∨ (is_ok (parse_datetime date takeoff) = true
          ∧ parse_datetime date landing = Raise e) →
       record date tail takeoff landing n fs
         = (Ok (false, Date_time_parse_error e), fs)
       ∧ message_text (Date_time_parse_error e) = "Date/time parse error: ")
  ∧ (∀ date time,
       parse_datetime date time = parse_datetime (Str.strip date) (Str.strip time))
  ∧ parse_datetime "2024-1-5" "9:5" = parse_datetime "2024-01-05" "09:05".
Proof.
  split; [|split; [|split; [|split; [|split]]]].
  - apply parse_datetime_fixed_format.
  - intros Y m d H M HY Hm Hd HH HM.
    pose proof (parse_datetime_fixed_shape Y m d H M HY Hm Hd HH HM) as Hp.
    assert (Hinv : ¬ valid_fields Y m d H M →
              parse_datetime (iso_date Y m d) (hhmm H M)
              = Raise
                  (if (1 <=? m) && (m <=? 12) && ((1 <=? d) && (d <=? 31)) && (H <=? 23)
                   then
                     if M <=? 59 then ValueError_out_of_range
                     else ValueError_unconverted
                            (String (digit_char (M mod 10)) EmptyString)
                   else ValueError_no_match (iso_date Y m d +:+ " " +:+ hhmm H M))).
    { intros Hno. rewrite Hp.
      destruct ((1 <=? m) && (m <=? 12) && ((1 <=? d) && (d <=? 31)) && (H <=? 23)) eqn:E;
        [|reflexivity].
      destruct (Z.leb_spec M 59); [|reflexivity].
      destruct ((1 <=? Y) && (d <=? Cal.days_in_month Y m)) eqn:E2; [|reflexivity].
      exfalso. apply Hno.
      repeat (apply andb_true_iff in E as [E ?]).
      apply andb_true_iff in E2 as [? ?].
      unfold valid_fields. lia. }
    split; [|exact Hinv]. split.
    + intros Hok.
      destruct (classic_valid Y m d H M) as [Hv|Hno]; [exact Hv|].
      rewrite (Hinv Hno) in Hok. discriminate Hok.
    + intros Hv. by rewrite (parse_datetime_fixed_format _ _ _ _ _ Hv).
  - apply parse_datetime_ok.
  - intros date tail takeoff landing n fs e Hne Hp. split; [|reflexivity].
    apply record_parse_error; [exact Hne|]. by apply interval_raises.
  - intros date time. unfold parse_datetime. by rewrite !strip_idem.
  - reflexivity.
Qed.

Lemma fixed_format_parses_and_errors_reject_witness :
  valid_fields 2024 2 29 23 59
  ∧ parse_datetime "2024-02-29" "23:59" = Ok (Cal.minutes 2024 2 29 23 59)
  ∧ parse_datetime "2024-13-01" "10:00" = Raise (ValueError_no_match "2024-13-01 10:00")
  ∧ parse_datetime "2024-01-01" "24:00" = Raise (ValueError_no_match "2024-01-01 24:00")
  ∧ parse_datetime "2024-01-01" "10:60" = Raise (ValueError_unconverted "0")
  ∧ parse_datetime "0000-01-01" "10:00" = Raise ValueError_out_of_range
  ∧ record "2024-02-30" "N1" "10:00" "11:00" 1 fs_one
    = (Ok (false, Date_time_parse_error ValueError_out_of_range), fs_one).
Proof.
  assert (Hv : valid_fields 2024 2 29 23 59)
    by (unfold valid_fields; change (Cal.days_in_month 2024 2) with 29; lia).
  destruct fixed_format_parses_and_errors_reject as (Hfix & Hshape & _ & Herr & _).
  split; [exact Hv|]. split; [exact (Hfix 2024 2 29 23 59 Hv)|].
  split; [|split; [|split; [|split]]].
  - apply (Hshape 2024 13 1 10 0); [lia..|]. unfold valid_fields. lia.
  - apply (Hshape 2024 1 1 24 0); [lia..|]. unfold valid_fields. lia.
  - apply (Hshape 2024 1 1 10 60); [lia..|]. unfold valid_fields. lia.
  - apply (Hshape 0 1 1 10 0); [lia..|]. unfold valid_fields. lia.
  - apply Herr; [discriminate|]. left. vm_compute. reflexivity.
Defined.

(** C6, as stated, fails: a date and a time that are not in the fixed
    format (the month, the day and the hour have one digit) parse. *)
Lemma other_formats_parse :
  ¬ (∀ date time,
       is_ok (parse_datetime date time) = true →
       ∃ Y m d H M, date = iso_date Y m d ∧ time = hhmm H M).
Proof.
  intros H. destruct (H "2024-1-5" "9:05") as (Y & m & d & _ & _ & Hd & _).
  - vm_compute. reflexivity.
  - apply (f_equal String.length) in Hd. discriminate Hd.
Qed.

(** C7 (as the code has it). An entity identifier that is empty after
    trimming is rejected with "Tail number required.", whatever the date
    and the times are, and nothing is parsed or written.  [record] has no
    such check for the date and the times: with an entity identifier, an
    empty date, takeoff or landing is rejected by the parse step, with a
    parse error, and the store is left as it was. *)
Theorem missing_field_rejected
    (date entity_id takeoff landing : string) (n : Z) (fs : filesystem) :
  (Str.upper (Str.strip entity_id) = EmptyString →
   record date entity_id takeoff landing n fs = (Ok (false, Tail_number_required), fs)
   ∧ is_validation_error Tail_number_required = true
   ∧ message_text Tail_number_required = "Tail number required.")
  ∧ (Str.upper (Str.strip entity_id) ≠ EmptyString →
     Str.strip date = EmptyString ∨ Str.strip takeoff = EmptyString
     ∨ Str.strip landing = EmptyString →
     ∃ e, record date entity_id takeoff landing n fs
          = (Ok (false, Date_time_parse_error e), fs)).
Proof.
  split.
  - intros E. split; [|by split].
    unfold record. rewrite add_flight_record_steps. cbv zeta. by rewrite E.
  - intros Hne Hempty.
    assert (∃ e, interval date takeoff landing = Raise e) as [e He].
    { unfold interval. destruct Hempty as [Hd|[Ht|Hl]].
      - destruct (parse_datetime_empty_date date takeoff Hd) as [e ->]. by exists e.
      - destruct (parse_datetime_empty_time date takeoff Ht) as [e ->]. by exists e.
      - destruct (parse_datetime date takeoff); [|by eexists].
        destruct (parse_datetime_empty_time date landing Hl) as [e ->]. by exists e. }
    exists e. by apply record_parse_error.
Qed.

Lemma missing_field_rejected_witness :
  record "2024-01-01" "  " "10:00" "11:00" 1 fs_one
    = (Ok (false, Tail_number_required), fs_one)
  ∧ ∃ e, record "2024-01-01" "N1" "10:00" " " 1 fs_one
         = (Ok (false, Date_time_parse_error e), fs_one).
Proof.
  split.
  - apply (missing_field_rejected "2024-01-01" "  " "10:00" "11:00" 1 fs_one).
    reflexivity.
  - apply (missing_field_rejected "2024-01-01" "N1" "10:00" " " 1 fs_one);
      [discriminate|]. right. right. reflexivity.
Defined.

(** C7, as stated, fails: with an entity identifier and an empty takeoff
    time the call is rejected by a parse error, not by the validation. *)
Lemma empty_time_is_a_parse_error :
  ¬ (∀ date entity_id takeoff landing n (fs : filesystem),
       Str.upper (Str.strip entity_id) = EmptyString
       ∨ Str.strip takeoff = EmptyString ∨ Str.strip landing = EmptyString →
       ∃ m, fst (record date entity_id takeoff landing n fs) = Ok (false, m)
            ∧ is_validation_error m = true).
Proof.
  intros H.
  destruct (H "2024-01-01" "N1" "" "10:00" 1 ∅) as (m & Hm & Hv).
  - right. left. reflexivity.
  - vm_compute in Hm. injection Hm as <-. discriminate Hv.
Qed.

(** * Further properties of the ledger code *)

(** ** Writing and reading a ledger file *)

Lemma write_flights_df_insert id df (fs : filesystem) :
  write_flights_df id df fs = <[Str.upper (Str.strip id) := Some (Csv df)]> fs.
Proof.
  unfold write_flights_df, flights_csv_path, aircraft_folder. apply insert_makedirs.
Qed.



(** ** One ledger per aircraft *)

Lemma record_steps_normalised date a b takeoff landing n fs :
  Str.upper (Str.strip a) = Str.upper (Str.strip b) →
  record date a takeoff landing n fs = record date b takeoff landing n fs.
Proof.
  intros E. unfold record. rewrite !add_flight_record_steps. cbv zeta. by rewrite E.
Qed.

Lemma record_load_other date id id' takeoff landing n fs :
  Str.upper (Str.strip id') ≠ Str.upper (Str.strip id) →
  load id' (snd (record date id takeoff landing n fs)) = load id' fs.
Proof.
  intros Hne.
  pose proof (record_call_load id' (Call date id takeoff landing n) fs) as H.
  unfold record_call in H. cbn [c_date c_entity c_takeoff c_landing c_count] in H.
  rewrite H. rewrite bool_decide_eq_false_2 by congruence.
  rewrite andb_false_r. apply app_nil_r.
Qed.





(** ** The ledger only grows *)

(** X5. On ledgers that the file keeps as they are, whatever calls of
    [add_flight_record] are made, the rows that a ledger had stay where
    they were, unchanged: the files hold what was written, and the
    ledger afterwards is the ledger before followed by one row for each
    call that succeeded on that aircraft, in the order of the calls. *)
Theorem ledger_append_only (id : string) (calls : list call) (fs : filesystem) :
  plain_name (Str.upper (Str.strip id)) = true →
  plain_calls calls fs = true →
  run_stored calls fs = Some (run calls fs)
  ∧ ∃ rows,
      load id (run calls fs) = load id fs ++ rows
      ∧ length rows = length (accepted id calls fs)
      ∧ Forall2 row_of_call rows (accepted id calls fs).
Proof.
  intros _ Hp. split; [by apply run_stored_plain|].
  destruct (run_ledger id calls fs) as (rows & Hl & _ & Hf).
  exists rows. split; [exact Hl|]. split; [|exact Hf].
  by apply Forall2_length in Hf.
Qed.

Lemma ledger_append_only_witness :
  run_stored calls_n9 fs_one = Some (run calls_n9 fs_one)
  ∧ ∃ rows,
      load "N9" (run calls_n9 fs_one) = load "N9" fs_one ++ rows
      ∧ length rows = length (accepted "N9" calls_n9 fs_one)
      ∧ Forall2 row_of_call rows (accepted "N9" calls_n9 fs_one).
Proof.
  apply (ledger_append_only "N9" calls_n9 fs_one); vm_compute; reflexivity.
Defined.

(** ** The first flight of a ledger *)

Lemma round2_round2 x : round2 (round2 x) = round2 x.
Proof.
  apply (round2_hundredths (round2 x) (round_half_even (x * 100))).
  unfold round2. apply Qred_correct.
Qed.

(** X7. When reading the ledger gives no rows - there is no file, the
    file has only the header of the eight columns, or the file cannot be
    read - a flight with a plain tail number and a date and times that
    parse, whose row the file keeps as it is (plain date and times, a
    count in the [int64] range), is accepted, and the file is then a
    readable ledger of that one row, with the totals of the row equal to
    its own duration and count: what an unreadable file held is
    replaced. *)
Theorem first_flight_starts_the_ledger
    (date tail takeoff landing : string) (n : Z) (fs : filesystem) (t1 t2 : Z) :
  plain_name (Str.upper (Str.strip tail)) = true →
  interval date takeoff landing = Ok (t1, t2) →
  load tail fs = [] →
  plain_ledger (load tail (snd (add_flight_record date tail takeoff landing n fs)))
  = true →
  add_flight_record_stored date tail takeoff landing n fs
  = Some (add_flight_record date tail takeoff landing n fs)
  ∧ ∃ r, add_flight_record date tail takeoff landing n fs
         = (Ok (true, Flight_added),
            <[Str.upper (Str.strip tail) := Some (Csv [r])]> fs)
         ∧ (Date r, Takeoff_Time r, Landing_Time r) = (date, takeoff, landing)
         ∧ calc_duration_hours date takeoff landing = Ok (Flight_Duration r)
         ∧ Total_Hours_After_Flight r = Flight_Duration r
         ∧ Landings_This_Flight r = n
         ∧ Total_Landings_After_Flight r = n.
Proof.
  intros Hname Hi He Hp.
  assert (Hne : Str.upper (Str.strip tail) ≠ EmptyString)
    by (intros E; rewrite E in Hname; discriminate Hname).
  split; [apply add_flight_record_stored_plain; intros _; exact Hp|].
  assert (Hov : overlap_loop t1 t2 (load tail fs) = false) by (by rewrite He).
  pose proof (record_accepted date tail takeoff landing n fs t1 t2 Hne Hi Hov) as H.
  unfold record in H. rewrite H, He. eexists. split; [reflexivity|].
  unfold new_row. simpl. repeat split.
  - by rewrite calc_duration_hours_interval, Hi.
  - rewrite (round2_comp _ (round2 (inject_Z (60 * (t2 - t1)) / 3600)))
      by apply Qplus_0_l.
    apply round2_round2.
Qed.

Lemma first_flight_starts_the_ledger_witness :
  ∃ r, add_flight_record "2024-06-01" "n8" "07:00" "08:30" 2 fs_broken
       = (Ok (true, Flight_added), <["N8" := Some (Csv [r])]> fs_broken)
       ∧ Total_Hours_After_Flight r = Flight_Duration r
       ∧ Total_Landings_After_Flight r = 2.
Proof.
  destruct (first_flight_starts_the_ledger "2024-06-01" "n8" "07:00" "08:30" 2 fs_broken
              (Cal.minutes 2024 6 1 7 0) (Cal.minutes 2024 6 1 8 30))
    as (_ & r & H1 & _ & _ & H2 & _ & H3); [vm_compute; reflexivity..|].
  exists r. split; [exact H1|]. split; [exact H2 | exact H3].
Defined.

(** ** Flights of one ledger never overlap *)

Lemma ledger_apart_snoc (df : list row) r :
  ledger_apart df →
  is_ok (existing_interval r) = true →
  (∀ r', r' ∈ df → rows_apart r' r) →
  ledger_apart (df ++ [r]).
Proof.
  intros [Hall Hpair] Hr Hnew. split.
  - apply Forall_app. split; [exact Hall|]. by constructor.
  - intros i j r1 r2 Hij H1 H2.
    pose proof (lookup_lt_Some _ _ _ H2) as Hj.
    rewrite length_app in Hj. simpl in Hj.
    destruct (decide (j < length df)%nat) as [Hlt|Hge].
    + rewrite lookup_app_l in H1, H2 by lia. by apply (Hpair i j).
    + assert (j = length df) as -> by lia.
      rewrite lookup_app_l in H1 by lia.
      rewrite lookup_app_r, Nat.sub_diag in H2 by lia.
      injection H2 as <-. apply Hnew. by apply list_elem_of_lookup_2 with i.
Qed.

Lemma ledger_apart_step id c fs :
  ledger_apart (load id fs) → ledger_apart (load id (snd (record_call c fs))).
Proof.
  intros Hap. rewrite record_call_load.
  destruct (succeeded _ && bool_decide _) eqn:Hacc; [|by rewrite app_nil_r].
  apply andb_true_iff in Hacc as [Hs Heq]. apply bool_decide_eq_true in Heq.
  assert (∃ m, fst (record_call c fs) = Ok (true, m)) as [m Hm].
  { destruct (fst (record_call c fs)) as [[[|] m]|]; try discriminate. by exists m. }
  destruct (record_success_inv _ _ _ _ _ _ _ Hm) as (t1 & t2 & _ & Hi & Hov).
  rewrite Hi.
  rewrite <- (load_normalised (c_entity c)), Heq, load_normalised in Hov.
  apply ledger_apart_snoc; [exact Hap | |].
  - change (existing_interval (new_row _ _ _ _ _ _ _ _))
      with (interval (c_date c) (c_takeoff c) (c_landing c)). by rewrite Hi.
  - intros r' Hin. destruct Hap as [Hall _].
    pose proof (proj1 (Forall_forall _ _) Hall r' Hin) as Hok. cbv beta in Hok.
    destruct (existing_interval r') as [[s' e']|] eqn:E; [|discriminate Hok].
    exists s', e', t1, t2. split; [exact E|]. split.
    + change (existing_interval (new_row _ _ _ _ _ _ _ _))
        with (interval (c_date c) (c_takeoff c) (c_landing c)). exact Hi.
    + exact (proj1 (overlap_loop_false _ _ _) Hov r' s' e' Hin E).
Qed.

(** X6. If the rows of a ledger all have an interval and no two of them
    intersect, this is still so after any calls of [add_flight_record]
    that keep the ledgers plain: every row that is added parses again to
    the interval it was accepted with, and lies apart from (at most
    touches) every other row.  A ledger that started empty has the
    property. *)
Theorem ledger_never_overlaps (id : string) (calls : list call) (fs : filesystem) :
  plain_name (Str.upper (Str.strip id)) = true →
  plain_calls calls fs = true →
  ledger_apart (load id fs) →
  run_stored calls fs = Some (run calls fs)
  ∧ ledger_apart (load id (run calls fs)).
Proof.
  intros _ Hp Hap. split; [by apply run_stored_plain|]. clear Hp.
  revert fs Hap. induction calls as [|c calls IH]; intros fs Hap; [exact Hap|].
  simpl. apply IH. by apply ledger_apart_step.
Qed.

Lemma ledger_never_overlaps_witness :
  ledger_apart (load "N9" ∅) ∧ ledger_apart (load "N9" (run calls_n9 ∅)).
Proof.
  assert (H0 : ledger_apart (load "N9" ∅)).
  { split; [constructor|]. intros i j r1 r2 _ H. discriminate H. }
  split; [exact H0|].
  apply (ledger_never_overlaps "N9" calls_n9 ∅); [vm_compute; reflexivity..|exact H0].
Defined.

(** X11. Once a flight of positive duration is in the ledger, the same
    flight is rejected as overlapping, with any event count, on every
    later attempt, whatever other calls were made in between, as long as
    the ledgers that the calls write are ones that the files keep as
    they are. *)
Theorem same_flight_again_is_rejected
    (date tail takeoff landing : string) (n : Z) (fs : filesystem)
    (t1 t2 : Z) (m : message) :
  interval date takeoff landing = Ok (t1, t2) →
  t1 < t2 →
  fst (add_flight_record date tail takeoff landing n fs) = Ok (true, m) →
  ∀ calls n',
    plain_calls (Call date tail takeoff landing n :: calls) fs = true →
    let fs' := run calls (snd (add_flight_record date tail takeoff landing n fs)) in
    run_stored (Call date tail takeoff landing n :: calls) fs = Some fs'
    ∧ add_flight_record date tail takeoff landing n' fs'
      = (Ok (false, Overlap_detected), fs').
Proof.
  intros Hi Hlt Hok calls n' Hp fs'.
  split; [by rewrite (run_stored_plain _ _ Hp)|].
  change (add_flight_record date tail takeoff landing n fs)
    with (record date tail takeoff landing n fs) in *.
  destruct (record_success_inv _ _ _ _ _ _ _ Hok) as (u1 & u2 & Hne & Hi' & Hov).
  rewrite Hi in Hi'. injection Hi' as <- <-.
  destruct (run_ledger tail calls (snd (record date tail takeoff landing n fs)))
    as (rows & Hl & _). fold fs' in Hl.
  rewrite (record_accepted _ _ _ _ _ _ _ _ Hne Hi Hov) in Hl. cbn [snd] in Hl.
  rewrite load_insert in Hl.
  pose (r := new_row (load tail fs) date (Str.upper (Str.strip tail))
               takeoff landing n t1 t2).
  apply (record_rejects_intersecting date tail takeoff landing n' fs' r t1 t2 t1 t2);
    [exact Hne | | exact Hi | exact Hi | exact Hlt | exact Hlt].
  rewrite Hl. apply elem_of_app. left. apply elem_of_app. right.
  by apply list_elem_of_singleton.
Qed.

Lemma same_flight_again_is_rejected_witness :
  add_flight_record "2024-01-03" "N123AB" "09:00" "09:45" 4
    (run calls_n9 (snd (add_flight_record "2024-01-03" "N123AB" "09:00" "09:45" 1 fs_one)))
  = (Ok (false, Overlap_detected),
     run calls_n9 (snd (add_flight_record "2024-01-03" "N123AB" "09:00" "09:45" 1 fs_one))).
Proof.
  apply (same_flight_again_is_rejected "2024-01-03" "N123AB" "09:00" "09:45" 1 fs_one
           (Cal.minutes 2024 1 3 9 0) (Cal.minutes 2024 1 3 9 45) Flight_added);
    vm_compute; reflexivity.
Defined.

(** ** Rows that do not parse, and exceptions *)

Lemma overlap_loop_skip new_start new_end (df : list row) :
  overlap_loop new_start new_end df
  = overlap_loop new_start new_end
      (filter (λ r, is_ok (existing_interval r) = true) df).
Proof.
  induction df as [|r df IH]; [reflexivity|].
  rewrite filter_cons. simpl.
  destruct (existing_interval r) as [[es ee]|] eqn:E; simpl.
  - destruct (decide (true = true)); [|done]. simpl. rewrite E.
    by destruct (_ && _).
  - destruct (decide (false = true)); [done|exact IH].
Qed.

(** X8. The scan of [detect_overlap] skips the rows whose date or times
    do not parse: its answer is the answer on the rows that parse, and a
    ledger without such a row never rejects a flight.  The answer does
    not depend on the order of the rows. *)
Theorem unparsable_rows_are_skipped (new_start new_end : Z) (df : list row) :
  overlap_loop new_start new_end df
  = overlap_loop new_start new_end
      (filter (λ r, is_ok (existing_interval r) = true) df)
  ∧ (Forall (λ r, is_ok (existing_interval r) = false) df →
     overlap_loop new_start new_end df = false)
  ∧ (∀ df', df ≡ₚ df' →
       overlap_loop new_start new_end df = overlap_loop new_start new_end df').
Proof.
  split; [apply overlap_loop_skip|]. split.
  - intros Hall. apply overlap_loop_false. intros r es ee Hin Hr.
    pose proof (proj1 (Forall_forall _ _) Hall r Hin) as Hbad. cbv beta in Hbad.
    rewrite Hr in Hbad. discriminate Hbad.
  - intros df' Hp.
    destruct (overlap_loop new_start new_end df) eqn:E1; symmetry.
    + apply overlap_loop_true. apply overlap_loop_true in E1
        as (r & es & ee & Hin & H). exists r, es, ee. split; [|exact H].
      by rewrite <- Hp.
    + apply overlap_loop_false. intros r es ee Hin Hr.
      apply (proj1 (overlap_loop_false _ _ _) E1 r es ee); [|exact Hr].
      by rewrite Hp.
Qed.

Lemma unparsable_rows_are_skipped_witness :
  overlap_loop 0 5000000
    [Row "01/02/2024" "N1" "10:00" "12:00" 2 1 2 1; Row "2024-01-02" "N1" "noon" "13:00" 1 1 3 2]
  = false.
Proof.
  apply (proj1 (proj2 (unparsable_rows_are_skipped 0 5000000 _))).
  repeat constructor.
Defined.



(** ** Instants are ordered like dates and times *)

Section CalendarOrder.

Import Cal.

Ltac month_cases m :=
  let Hc := fresh "Hc" in
  assert (m = 1 ∨ m = 2 ∨ m = 3 ∨ m = 4 ∨ m = 5 ∨ m = 6 ∨ m = 7 ∨ m = 8
          ∨ m = 9 ∨ m = 10 ∨ m = 11 ∨ m = 12) as Hc by lia;
  repeat (destruct Hc as [->|Hc]); [..|subst m].

Lemma days_before_year_succ Y :
  days_before_year (Y + 1) = days_before_year Y + 365 + (if is_leap Y then 1 else 0).
Proof.
  unfold days_before_year, is_leap. cbv zeta. replace (Y + 1 - 1) with Y by lia.
  destruct (Z.eqb_spec (Y mod 4) 0), (Z.eqb_spec (Y mod 100) 0),
    (Z.eqb_spec (Y mod 400) 0); simpl; Z.to_euclidean_division_equations; lia.
Qed.

Lemma days_before_year_mono Y Y' : Y ≤ Y' → days_before_year Y ≤ days_before_year Y'.
Proof.
  intros H. unfold days_before_year. cbv zeta.
  Z.to_euclidean_division_equations. lia.
Qed.

Lemma day_of_year_bounds Y m d :
  1 ≤ m ≤ 12 → 1 ≤ d ≤ days_in_month Y m →
  1 ≤ days_before_month Y m + d ≤ 365 + (if is_leap Y then 1 else 0).
Proof.
  intros Hm Hd. unfold days_before_month, days_in_month in *.
  month_cases m; destruct (is_leap Y); simpl in *; lia.
Qed.

Lemma day_of_year_mono Y m d m' d' :
  1 ≤ m ≤ 12 → 1 ≤ m' ≤ 12 → 1 ≤ d ≤ days_in_month Y m → 1 ≤ d' →
  m < m' → days_before_month Y m + d < days_before_month Y m' + d'.
Proof.
  intros Hm Hm' Hd Hd' Hlt. unfold days_before_month, days_in_month in *.
  month_cases m; month_cases m'; try lia; destruct (is_leap Y); simpl in *; lia.
Qed.

Lemma ymd2ord_lt Y m d Y' m' d' :
  1 ≤ m ≤ 12 → 1 ≤ m' ≤ 12 →
  1 ≤ d ≤ days_in_month Y m → 1 ≤ d' ≤ days_in_month Y' m' →
  Y < Y' ∨ (Y = Y' ∧ (m < m' ∨ (m = m' ∧ d < d'))) →
  ymd2ord Y m d < ymd2ord Y' m' d'.
Proof.
  intros Hm Hm' Hd Hd' Hlt. unfold ymd2ord.
  destruct Hlt as [HY|[<- [Hmm|[<- Hdd]]]].
  - pose proof (day_of_year_bounds Y m d Hm Hd).
    pose proof (day_of_year_bounds Y' m' d' Hm' Hd').
    pose proof (days_before_year_succ Y).
    pose proof (days_before_year_mono (Y + 1) Y' ltac:(lia)). lia.
  - pose proof (day_of_year_mono Y m d m' d' Hm Hm' Hd (proj1 Hd') Hmm). lia.
  - lia.
Qed.

(** X14. The number of minutes that stands for a datetime grows with the
    date and time it stands for: for two valid dates and times, the first
    number is smaller exactly when the first date and time is earlier,
    year before month before day before hour before minute; equal numbers
    stand for equal fields.  So the comparisons of [calc_duration_hours]
    and [detect_overlap] compare dates and times, and two inputs in the
    fixed format parse in the order of what they say. *)
Theorem instants_ordered_like_calendar (Y m d H M Y' m' d' H' M' : Z) :
  valid_fields Y m d H M → valid_fields Y' m' d' H' M' →
  (minutes Y m d H M < minutes Y' m' d' H' M' ↔ earlier Y m d H M Y' m' d' H' M')
  ∧ (minutes Y m d H M = minutes Y' m' d' H' M' ↔
     (Y, m, d, H, M) = (Y', m', d', H', M'))
  ∧ (∀ t t',
       parse_datetime (iso_date Y m d) (hhmm H M) = Ok t →
       parse_datetime (iso_date Y' m' d') (hhmm H' M') = Ok t' →
       (t < t' ↔ earlier Y m d H M Y' m' d' H' M')).
Proof.
  intros V V'.
  assert (Hcmp : ∀ a b c e f a' b' c' e' f',
            valid_fields a b c e f → valid_fields a' b' c' e' f' →
            earlier a b c e f a' b' c' e' f' →
            minutes a b c e f < minutes a' b' c' e' f').
  { intros a b c e f a' b' c' e' f' (HY & Hm & Hd & HH & HM)
      (HY' & Hm' & Hd' & HH' & HM') He. unfold minutes.
    assert (ymd2ord a b c < ymd2ord a' b' c'
            ∨ (ymd2ord a b c = ymd2ord a' b' c' ∧ 60 * e + f < 60 * e' + f')) as [|[-> ?]];
      [|lia..].
    unfold earlier in He.
    destruct He as [?|[-> [?|[-> [?|[-> He]]]]]];
      [left; apply ymd2ord_lt; auto; lia..|].
    right. split; [reflexivity|]. lia. }
  assert (Htri : earlier Y m d H M Y' m' d' H' M'
                 ∨ (Y, m, d, H, M) = (Y', m', d', H', M')
                 ∨ earlier Y' m' d' H' M' Y m d H M).
  { unfold earlier.
    destruct (Z.lt_trichotomy Y Y') as [?|[->|?]]; [tauto| |tauto].
    destruct (Z.lt_trichotomy m m') as [?|[->|?]]; [tauto| |tauto].
    destruct (Z.lt_trichotomy d d') as [?|[->|?]]; [tauto| |tauto].
    destruct (Z.lt_trichotomy H H') as [?|[->|?]]; [tauto| |tauto].
    destruct (Z.lt_trichotomy M M') as [?|[->|?]]; tauto. }
  assert (H1 : minutes Y m d H M < minutes Y' m' d' H' M'
               ↔ earlier Y m d H M Y' m' d' H' M').
  { split; [|by apply Hcmp]. intros Hlt.
    destruct Htri as [?|[E|He]]; [done| |].
    - injection E as -> -> -> -> ->. lia.
    - pose proof (Hcmp _ _ _ _ _ _ _ _ _ _ V' V He). lia. }
  split; [exact H1|]. split.
  - split; [|by intros [= -> -> -> -> ->]]. intros Heq.
    destruct Htri as [He|[E|He]]; [|exact E|].
    + pose proof (Hcmp _ _ _ _ _ _ _ _ _ _ V V' He). lia.
    + pose proof (Hcmp _ _ _ _ _ _ _ _ _ _ V' V He). lia.
  - intros t t'. rewrite !parse_datetime_fixed_format by assumption.
    by intros [= <-] [= <-].
Qed.

Lemma instants_ordered_like_calendar_witness :
  minutes 2023 12 31 23 59 < minutes 2024 1 1 0 0
  ↔ earlier 2023 12 31 23 59 2024 1 1 0 0.
Proof.
  refine (proj1 (instants_ordered_like_calendar 2023 12 31 23 59 2024 1 1 0 0 _ _));
    unfold valid_fields;
    [change (days_in_month 2023 12) with 31 | change (days_in_month 2024 1) with 31];
    lia.
Defined.

End CalendarOrder.

(** ** The range of a duration *)

Lemma forallb_seqZ (f : Z → bool) (lo n : Z) :
  forallb f (seqZ lo n) = true → ∀ v, lo ≤ v < lo + n → f v = true.
Proof.
  intros H v Hv. eapply forallb_forall; [exact H|].
  apply list_elem_of_In, elem_of_seqZ. exact Hv.
Qed.

Lemma duration_in_range_day m : 0 ≤ m < 1440 → duration_in_range m = true.
Proof. apply (forallb_seqZ duration_in_range 0 1440). vm_compute. reflexivity. Qed.

Lemma same_day_minutes t1 e0 :
  Cal.toordinal t1 = Cal.toordinal e0 → -1440 < e0 - t1 < 1440.
Proof. unfold Cal.toordinal. Z.to_euclidean_division_equations. lia. Qed.

Lemma rollover_steps date takeoff landing t1 e0 :
  parse_datetime date takeoff = Ok t1 →
  parse_datetime date landing = Ok e0 →
  interval date takeoff landing
  = (if e0 <? t1
     then (if Cal.toordinal e0 <? Cal.MAXORDINAL
           then Ok (t1, e0 + 1440) else Raise OverflowError)
     else Ok (t1, e0))
  ∧ 0 ≤ e0.
Proof.
  intros Hs He. pose proof (parse_datetime_nonneg _ _ _ He) as Hnn.
  split; [|exact Hnn]. unfold interval. rewrite Hs, He.
  destruct (e0 <? t1); [|reflexivity].
  rewrite (add_days_one _ Hnn). by destruct (_ <? _).
Qed.

Lemma duration_same_day (date takeoff landing : string) (t1 e0 : Z) :
  parse_datetime date takeoff = Ok t1 →
  parse_datetime date landing = Ok e0 →
  Cal.toordinal t1 = Cal.toordinal e0 →
  (e0 < t1 → Cal.toordinal e0 < Cal.MAXORDINAL) →
  ∃ d, calc_duration_hours date takeoff landing = Ok d
       ∧ (0 <= d)%Q ∧ (d <= 2398 # 100)%Q
       ∧ ((d == 0)%Q ↔ t1 = e0)
       ∧ centi d.
Proof.
  intros Ht He Hday Hmax.
  pose proof (same_day_minutes _ _ Hday) as Hm.
  destruct (rollover_steps date takeoff landing t1 e0 Ht He) as [Hi Hval].
  assert (∃ t2, interval date takeoff landing = Ok (t1, t2)
                ∧ 0 ≤ t2 - t1 < 1440 ∧ (t2 - t1 = 0 ↔ t1 = e0)) as (t2 & Hi2 & Hr & Hz).
  { rewrite Hi. destruct (Z.ltb_spec e0 t1) as [Hlt|Hge].
    - destruct (Z.ltb_spec (Cal.toordinal e0) Cal.MAXORDINAL) as [_|?];
        [|specialize (Hmax Hlt); lia].
      exists (e0 + 1440). split; [reflexivity|]. lia.
    - exists e0. split; [reflexivity|]. lia. }
  rewrite calc_duration_hours_interval, Hi2.
  exists (hours_of_minutes (t2 - t1)). split; [reflexivity|].
  pose proof (duration_in_range_day _ Hr) as Hc. unfold duration_in_range in Hc.
  apply andb_true_iff in Hc as [Hc H3]. apply andb_true_iff in Hc as [H1 H2].
  apply Qle_bool_iff in H1, H2. apply Bool.eqb_prop in H3.
  split; [exact H1|]. split; [exact H2|]. split; [|apply round2_centi].
  rewrite <- Hz, <- Qeq_bool_iff, H3. apply Z.eqb_eq.
Qed.

(** X10. When takeoff and landing parse on the same calendar day (and a
    landing before takeoff is not on 9999-12-31), [calc_duration_hours]
    returns a duration between 0 and 23.98 hours, a whole number of
    hundredths, and it returns 0 only when takeoff and landing are the
    same instant: a flight of one minute or more never has duration 0.
    This is so for every date in the fixed format before year 9999 with
    any two times HH:MM. *)
Theorem duration_range :
  (∀ (date takeoff landing : string) (t1 e0 : Z),
     parse_datetime date takeoff = Ok t1 →
     parse_datetime date landing = Ok e0 →
     Cal.toordinal t1 = Cal.toordinal e0 →
     (e0 < t1 → Cal.toordinal e0 < Cal.MAXORDINAL) →
     ∃ d, calc_duration_hours date takeoff landing = Ok d
          ∧ (0 <= d)%Q ∧ (d <= 2398 # 100)%Q
          ∧ ((d == 0)%Q ↔ t1 = e0)
          ∧ centi d)
  ∧ (∀ Y m d H M H' M',
       valid_fields Y m d H M → 0 ≤ H' ≤ 23 → 0 ≤ M' ≤ 59 → Y < 9999 →
       ∃ h, calc_duration_hours (iso_date Y m d) (hhmm H M) (hhmm H' M') = Ok h
            ∧ (0 <= h)%Q ∧ (h <= 2398 # 100)%Q
            ∧ ((h == 0)%Q ↔ (H, M) = (H', M'))).
Proof.
  split; [exact duration_same_day|].
  intros Y m d H M H' M' V HH' HM' HY.
  assert (V' : valid_fields Y m d H' M') by (unfold valid_fields in *; tauto).
  pose proof (parse_datetime_fixed_format _ _ _ _ _ V) as P.
  pose proof (parse_datetime_fixed_format _ _ _ _ _ V') as P'.
  destruct (minutes_ordinal _ _ _ _ _ V) as [_ O].
  destruct (minutes_ordinal _ _ _ _ _ V') as [_ O'].
  destruct (duration_same_day _ _ _ _ _ P P') as (h & Hh & H1 & H2 & H3 & _).
  - by rewrite O, O'.
  - intros _. rewrite O'. destruct V as (VY & Vm & Vd & _).
    pose proof (day_of_year_bounds Y m d Vm Vd).
    pose proof (days_before_year_succ Y).
    pose proof (days_before_year_mono (Y + 1) 9999 ltac:(lia)) as Hmono.
    change (Cal.days_before_year 9999) with 3651694 in Hmono.
    unfold Cal.ymd2ord, Cal.MAXORDINAL. lia.
  - exists h. split; [exact Hh|]. split; [exact H1|]. split; [exact H2|].
    rewrite H3. unfold Cal.minutes. split.
    + intros E. f_equal; unfold valid_fields in *; lia.
    + by intros [= -> ->].
Qed.

Lemma duration_range_witness :
  ∃ d, calc_duration_hours "2024-03-10" "22:00" "21:59" = Ok d
       ∧ (0 <= d)%Q ∧ (d <= 2398 # 100)%Q.
Proof.
  destruct (proj1 duration_range "2024-03-10" "22:00" "21:59"
              (Cal.minutes 2024 3 10 22 0) (Cal.minutes 2024 3 10 21 59))
    as (d & H1 & H2 & H3 & _);
    [vm_compute; reflexivity.. | intros _; vm_compute; reflexivity |].
  exists d. split; [exact H1|]. split; [exact H2 | exact H3].
Defined.

(** ** The form *)

Lemma upper_empty s : Str.upper s = EmptyString ↔ s = EmptyString.
Proof. destruct s; simpl; split; congruence. Qed.

Lemma is_empty_false s : is_empty s = false ↔ s ≠ EmptyString.
Proof. destruct s; simpl; split; congruence. Qed.

Lemma on_add_flight_steps date_var tail_var takeoff_var landing_var landings_var fs n :
  Str.strip date_var ≠ EmptyString → Str.strip tail_var ≠ EmptyString →
  Str.strip takeoff_var ≠ EmptyString → Str.strip landing_var ≠ EmptyString →
  Str.strip landings_var ≠ EmptyString →
  py_int (Str.strip landings_var) = Some n →
  on_add_flight date_var tail_var takeoff_var landing_var landings_var fs
  = let '(out, fs') :=
      add_flight_record (Str.strip date_var) (Str.strip tail_var)
        (Str.strip takeoff_var) (Str.strip landing_var) n fs in
    match out with
    | Raise e => (Raise e, fs')
    | Ok (true, msg) => (Ok (status_set msg), fs')
    | Ok (false, msg) => (Ok (showwarning_Not_added msg), fs')
    end.
Proof.
  intros H1 H2 H3 H4 H5 Hn. unfold on_add_flight. cbv zeta.
  apply is_empty_false in H1, H2, H3, H4, H5.
  by rewrite H1, H2, H3, H4, H5, Hn.
Qed.

(** X12. The handler of "Add Flight" trims the five fields and calls
    [add_flight_record] only when none of them is empty and the number of
    landings reads as an integer; otherwise it shows "Missing fields" or
    "Invalid input" (also for a number of more than 4300 digits) and the
    store is as it was.  When it calls, with a number in the [int64]
    range, for a plain tail number and a ledger that the file keeps as
    it is, it shows the message of [add_flight_record], in the status
    line on success and in the warning "Not added" on rejection; that
    message is never "Tail number required."; and the store changes only
    on success. *)
Theorem form_checks_before_adding
    (date_var tail_var takeoff_var landing_var landings_var : string)
    (fs : filesystem) :
  (Str.strip tail_var ≠ EmptyString →
   plain_name (Str.upper (Str.strip tail_var)) = true) →
  plain_ledger (load tail_var fs) = true →
  let date := Str.strip date_var in
  let tail := Str.strip tail_var in
  let takeoff := Str.strip takeoff_var in
  let landing := Str.strip landing_var in
  let landings := Str.strip landings_var in
  let out := on_add_flight date_var tail_var takeoff_var landing_var landings_var fs in
  let filled :=
    date ≠ EmptyString ∧ tail ≠ EmptyString ∧ takeoff ≠ EmptyString
    ∧ landing ≠ EmptyString ∧ landings ≠ EmptyString in
  (¬ filled → out = (Ok showerror_Missing_fields, fs))
  ∧ (filled → py_int landings = None → out = (Ok showerror_Invalid_input, fs))
  ∧ (4300 < count_digits landings → py_int landings = None)
  ∧ (filled → ∀ n, py_int landings = Some n → fits_int64 n = true →
       ∃ ok m,
         add_flight_record date tail takeoff landing n fs = (Ok (ok, m), snd out)
         ∧ m ≠ Tail_number_required
         ∧ fst out = Ok (if ok then status_set m else showwarning_Not_added m)
         ∧ (ok = false → snd out = fs)).
Proof.
  intros _ _ date tail takeoff landing landings out filled.
  assert (Hmiss : ¬ filled → out = (Ok showerror_Missing_fields, fs)).
  { intros Hnot. subst out. unfold on_add_flight. cbv zeta.
    fold date tail takeoff landing landings.
    destruct date, tail, takeoff, landing, landings; try reflexivity.
    exfalso. apply Hnot. unfold filled. repeat split; discriminate. }
  split; [exact Hmiss|]. split; [|split].
  - intros (H1 & H2 & H3 & H4 & H5) Hn. subst out. unfold on_add_flight. cbv zeta.
    fold date tail takeoff landing landings.
    apply is_empty_false in H1, H2, H3, H4, H5. by rewrite H1, H2, H3, H4, H5, Hn.
  - intros Hlim. unfold py_int. by destruct (Z.ltb_spec 4300 (count_digits landings)); [|lia].
  - intros (H1 & H2 & H3 & H4 & H5) n Hn _. subst out.
    rewrite (on_add_flight_steps _ _ _ _ _ _ n H1 H2 H3 H4 H5 Hn).
    fold date tail takeoff landing.
    rewrite add_flight_record_steps. cbv zeta.
    assert (Ht : Str.upper (Str.strip tail) ≠ EmptyString).
    { unfold tail. rewrite strip_idem. by rewrite upper_empty. }
    destruct (Str.upper (Str.strip tail)) as [|c0 s0] eqn:E; [done|]. rewrite <- E.
    destruct (interval date takeoff landing) as [[t1 t2]|e].
    + destruct (overlap_loop _ _ _).
      * exists false, Overlap_detected. by repeat split.
      * exists true, Flight_added. repeat split; discriminate.
    + exists false, (Date_time_parse_error e). by repeat split.
Qed.

Lemma form_checks_before_adding_witness :
  on_add_flight "2024-01-01" "N1" " " "11:00" "1" fs_one
    = (Ok showerror_Missing_fields, fs_one)
  ∧ on_add_flight "2024-01-01" "N1" "10:00" "11:00" "1.5" fs_one
    = (Ok showerror_Invalid_input, fs_one)
  ∧ fst (on_add_flight "2024-01-01" " n1 " "10:00" "11:00" " 2 " fs_one)
    = Ok (status_set Flight_added).
Proof.
  split; [|split].
  - apply (form_checks_before_adding "2024-01-01" "N1" " " "11:00" "1" fs_one);
      [intros _; reflexivity | reflexivity |].
    intros (_ & _ & H & _). by apply H.
  - apply (form_checks_before_adding "2024-01-01" "N1" "10:00" "11:00" "1.5" fs_one);
      [intros _; reflexivity | reflexivity | repeat split; discriminate | reflexivity].
  - destruct (form_checks_before_adding "2024-01-01" " n1 " "10:00" "11:00" " 2 " fs_one)
      as (_ & _ & _ & H); [intros _; reflexivity | reflexivity |].
    destruct (H ltac:(repeat split; discriminate) 2 eq_refl eq_refl)
      as (ok & m & Ha & _ & Ho & _).
    rewrite Ho.
    assert (Hb : (ok, m) = (true, Flight_added)).
    { apply (f_equal fst) in Ha. cbn [fst] in Ha. vm_compute in Ha.
      injection Ha as <- <-. reflexivity. }
    injection Hb as -> ->. reflexivity.
Defined.

Lemma form_steps_success date_var tail_var takeoff_var landing_var landings_var fs m :
  fst (on_add_flight date_var tail_var takeoff_var landing_var landings_var fs)
  = Ok (status_set m) →
  ∃ n t1 t2,
    py_int (Str.strip landings_var) = Some n
    ∧ Str.upper (Str.strip tail_var) ≠ EmptyString
    ∧ snd (on_add_flight date_var tail_var takeoff_var landing_var landings_var fs)
      = <[Str.upper (Str.strip tail_var) :=
            Some (Csv (load tail_var fs ++
                       [new_row (load tail_var fs) (Str.strip date_var)
                          (Str.upper (Str.strip tail_var)) (Str.strip takeoff_var)
                          (Str.strip landing_var) n t1 t2]))]> fs.
Proof.
  unfold on_add_flight. cbv zeta.
  destruct (_ || _); [discriminate|].
  destruct (py_int (Str.strip landings_var)) as [n|]; [|discriminate].
  destruct (add_flight_record _ _ _ _ n fs) as [out fs'] eqn:E.
  destruct out as [[[|] msg]|]; try discriminate. intros _.
  assert (Hok : fst (record (Str.strip date_var) (Str.strip tail_var)
                       (Str.strip takeoff_var) (Str.strip landing_var) n fs)
                = Ok (true, msg)) by (unfold record; by rewrite E).
  destruct (record_success_inv _ _ _ _ _ _ _ Hok) as (t1 & t2 & Hne & Hi & Hov).
  pose proof (record_accepted _ _ _ _ n _ _ _ Hne Hi Hov) as Hacc.
  unfold record in Hacc. rewrite E in Hacc. injection Hacc as _ ->.
  rewrite strip_idem in Hne |- *.
  assert (Hl : load (Str.strip tail_var) fs = load tail_var fs)
    by (by rewrite !load_lookup, strip_idem).
  rewrite Hl. by exists n, t1, t2.
Qed.

(** X13. The handler of "View History" shows the rows of the ledger of
    the aircraft named in the form (a plain tail number, a ledger that
    the file keeps as it is), in the order of the file, under any
    spelling of the tail number; without a tail number it reads nothing,
    and for a ledger without rows it shows "No Data".  It changes no
    ledger.  After "Add Flight" has set the status line and left a plain
    ledger, "View History" for the same tail number shows the ledger as
    it was before, followed by the new flight. *)
Theorem history_shows_the_ledger (tail_var : string) (fs : filesystem) :
  let tail := Str.upper (Str.strip tail_var) in
  let out := on_view_history tail_var fs in
  (tail ≠ EmptyString → plain_name tail = true) →
  plain_ledger (load tail_var fs) = true →
  (tail = EmptyString → out = (showerror_No_Tail_Number, fs))
  ∧ (tail ≠ EmptyString → load tail_var fs = [] → fst out = showinfo_No_Data tail)
  ∧ (tail ≠ EmptyString → load tail_var fs ≠ [] →
     out = (history_window tail (load tail_var fs), fs))
  ∧ (∀ id, plain_name (Str.upper (Str.strip id)) = true →
       load id (snd out) = load id fs)
  ∧ (∀ date_var takeoff_var landing_var landings_var m,
       fst (on_add_flight date_var tail_var takeoff_var landing_var landings_var fs)
       = Ok (status_set m) →
       plain_ledger
         (load tail_var
            (snd (on_add_flight date_var tail_var takeoff_var landing_var
                    landings_var fs))) = true →
       ∃ r, fst (on_view_history tail_var
                   (snd (on_add_flight date_var tail_var takeoff_var landing_var
                           landings_var fs)))
            = history_window tail (load tail_var fs ++ [r])
            ∧ (Date r, Tail_Number r, Takeoff_Time r, Landing_Time r)
              = (Str.strip date_var, tail, Str.strip takeoff_var, Str.strip landing_var)
            ∧ py_int (Str.strip landings_var) = Some (Landings_This_Flight r)).
Proof.
  intros tail out _ _.
  assert (Hview : ∀ fs0, tail ≠ EmptyString →
            on_view_history tail_var fs0
            = (match load tail_var fs0 with
               | [] => showinfo_No_Data tail
               | _ :: _ => history_window tail (load tail_var fs0)
               end, makedirs tail fs0)).
  { intros fs0 Hne. unfold on_view_history. cbv zeta. fold tail.
    apply is_empty_false in Hne. rewrite Hne.
    rewrite read_flights_df_load. unfold tail.
    rewrite load_normalised, normalise_idem. by destruct (load tail_var fs0). }
  split; [|split; [|split; [|split]]].
  - intros E. subst out. unfold on_view_history. cbv zeta. fold tail. by rewrite E.
  - intros Hne He. subst out. by rewrite (Hview fs Hne), He.
  - intros Hne Hl. subst out. rewrite (Hview fs Hne).
    unfold tail. rewrite (load_nonempty_makedirs _ _ Hl).
    by destruct (load tail_var fs).
  - intros id _. subst out.
    destruct (decide (tail = EmptyString)) as [E|Hne].
    + unfold on_view_history. cbv zeta. fold tail. by rewrite E.
    + rewrite (Hview fs Hne). apply load_makedirs.
  - intros date_var takeoff_var landing_var landings_var m Hok _.
    destruct (form_steps_success _ _ _ _ _ _ _ Hok) as (n & t1 & t2 & Hn & Hne & Hfs).
    fold tail in Hne, Hfs. rewrite Hfs, (Hview _ Hne). cbn [fst].
    set (r := new_row (load tail_var fs) (Str.strip date_var) tail
                (Str.strip takeoff_var) (Str.strip landing_var) n t1 t2).
    assert (Hl : load tail_var (<[tail := Some (Csv (load tail_var fs ++ [r]))]> fs)
                 = load tail_var fs ++ [r]) by apply load_insert.
    rewrite Hl. exists r.
    split; [|split; [reflexivity|exact Hn]].
    destruct (load tail_var fs ++ [r]) eqn:E; [|reflexivity].
    by apply app_eq_nil in E as [_ ?].
Qed.

Lemma history_shows_the_ledger_witness :
  on_view_history " n123ab " fs_one
    = (history_window "N123AB" [Row "2024-01-01" "N123AB" "10:00" "12:00" 2 1 2 1], fs_one)
  ∧ fst (on_view_history "N42" fs_one) = showinfo_No_Data "N42".
Proof.
  split.
  - assert (Hl : load " n123ab " fs_one
                 = [Row "2024-01-01" "N123AB" "10:00" "12:00" 2 1 2 1])
      by (vm_compute; reflexivity).
    rewrite <- Hl.
    apply (history_shows_the_ledger " n123ab " fs_one);
      [intros _; reflexivity | vm_compute; reflexivity | discriminate |].
    rewrite Hl. discriminate.
  - apply (history_shows_the_ledger "N42" fs_one);
      [intros _; reflexivity | reflexivity | discriminate | reflexivity].
Defined.
